(** * PaperBlog: the repository over the content store, and its two HTTP adapters

    A shallow embedding of [src/lib/papers.ts] (the data-access layer),
    [src/app/api/papers/route.ts] and [src/app/api/papers/[id]/route.ts] (the
    REST adapter),
    [src/app/api/mcp/route.ts] (the tool-call adapter) and the static
    parameters of [src/app/papers/[slug]/page.tsx], with the properties
    of the specification stated and settled against it.

    Conventions of the model:
    - a JavaScript string is a [string]: a sequence of code units, here the
      code units below 256;
    - a JavaScript number that the code handles is an integer or [NaN];
    - the file system is the content directory alone: either it does not exist
      yet, or it maps entry names to the text of the files (a flat directory of
      regular files that can be read and written, where names that differ in
      a code unit name different files; permissions, disk space and the
      length limits of the file system are not modelled);
    - the file of a date is the entry named by the date and ".json". This is
      what [path.join] makes of it for a plain name [plain_name]: one without
      the path separator "/" (paths are POSIX paths) and without NUL, as every
      date YYYY-MM-DD is. Of any other name [path.join] makes a normalised
      path ("./D" leads to the entry of D, "a/b" below the directory, "../x"
      out of it), which the model does not follow: whatever depends on the
      file that a caller's date names is stated for plain names;
    - a function that reads or writes files is a computation in the monad [M]
      (state: the content directory; result: a value or a thrown error);
    - TypeScript's types are trusted the way the code trusts them, null
      apart, which its casts let through: [JSON.parse(raw) as DailyPapers]
      yields a [DailyPapers], or the null of the text "null", or throws; the
      body of a tool call is null or has the properties the handler reads. *)

From Stdlib Require Import ZArith Ascii String List.
From stdpp Require Import base option list strings gmap sorting.

Local Open Scope string_scope.
Local Open Scope Z_scope.
Local Open Scope list_scope.
Set Warnings "-register-all".

(** ** The built-ins of the platform that the code calls *)

Module JS.

(** [s.startsWith(p)] *)
Fixpoint startsWith (s p : string) {struct p} : bool :=
  match p with
  | "" => true
  | String a p' =>
      match s with
      | "" => false
      | String b s' => if Ascii.eqb a b then startsWith s' p' else false
      end
  end.

(** [s.includes(q)]: [q] occurs in [s] at some position. *)
Fixpoint includes (s q : string) : bool :=
  startsWith s q
  || match s with
     | "" => false
     | String _ s' => includes s' q
     end.

(** [s.endsWith(suffix)] *)
Fixpoint endsWith (s suffix : string) : bool :=
  String.eqb s suffix
  || match s with
     | "" => false
     | String _ s' => endsWith s' suffix
     end.

(** [s] without its first [n] code units. *)
Fixpoint skip (n : nat) (s : string) : string :=
  match n, s with
  | O, _ => s
  | S _, "" => ""
  | S n', String _ s' => skip n' s'
  end.

(** [s.replace(pat, rep)] with a string pattern: the FIRST occurrence of
    [pat] in [s] is replaced, the rest of [s] is kept ([rep] is a plain
    string: the code only passes the empty one). *)
Fixpoint replace (s pat rep : string) : string :=
  if startsWith s pat then rep +:+ skip (String.length pat) s
  else match s with
       | "" => ""
       | String c s' => String c (replace s' pat rep)
       end.

(** [toLowerCase] on one code unit below 256: A-Z and the upper-case
    letters of Latin-1 (all of 0xC0-0xDE but the multiplication sign). On
    text of such units [toLowerCase] works unit by unit; the letters whose
    lowercase depends on their neighbours (the final sigma) lie beyond 256. *)
Definition lower_unit (c : ascii) : ascii :=
  let n := N_of_ascii c in
  if ((65 <=? n) && (n <=? 90) || (192 <=? n) && (n <=? 222) && negb (n =? 215))%N
  then ascii_of_N (n + 32)
  else c.

(** [s.toLowerCase()] *)
Fixpoint toLowerCase (s : string) : string :=
  match s with
  | "" => ""
  | String c s' => String (lower_unit c) (toLowerCase s')
  end.

(** [arr.sort()] on strings: the default comparison orders strings by their
    code units. Whatever algorithm the engine runs, the outcome is the
    ascending arrangement of the elements. *)
Definition sort (l : list string) : list string := merge_sort String.le l.

(** Numbers, as far as the code meets them. *)
Inductive number := NaN | Num (z : Z).

(** Truthiness of a number ([if (limit)]): 0 and NaN are falsy. *)
Definition truthy (n : number) : bool :=
  match n with
  | NaN => false
  | Num z => negb (z =? 0)
  end.

(** Truthiness of a string: only the empty string is falsy. *)
Definition truthy_string (s : string) : bool := negb (String.eqb s "").

(** White space that [parseInt] skips, among the code units below 256. *)
Definition is_white (c : ascii) : bool :=
  let n := N_of_ascii c in
  ((9 <=? n) && (n <=? 13) || (n =? 32) || (n =? 160))%N.

Fixpoint trimStart (s : string) : string :=
  match s with
  | "" => ""
  | String c s' => if is_white c then trimStart s' else s
  end.

Definition digit (c : ascii) : option Z :=
  let n := N_of_ascii c in
  if ((48 <=? n) && (n <=? 57))%N then Some (Z.of_N n - 48) else None.

(** The longest run of decimal digits at the head of [s], read as a number;
    [acc] is [None] as long as no digit was read. *)
Fixpoint digits (acc : option Z) (s : string) : option Z :=
  match s with
  | "" => acc
  | String c s' =>
      match digit c with
      | Some d => digits (Some (10 * default 0 acc + d)) s'
      | None => acc
      end
  end.

(** [parseInt(s, 10)] *)
Definition parseInt (s : string) : number :=
  let s := trimStart s in
  let '(sign, s) :=
    match s with
    | String "-" s' => (-1, s')
    | String "+" s' => (1, s')
    | _ => (1, s)
    end in
  match digits None s with
  | Some v => Num (sign * v)
  | None => NaN
  end.

(** The integer that [slice] makes of a number argument. *)
Definition toInteger (n : number) : Z :=
  match n with
  | NaN => 0
  | Num z => z
  end.

(** [arr.slice(0, end)]: a negative [end] counts from the end of the
    array; the bounds are clamped to the array. *)
Definition slice0 {A} (arr : list A) (end_ : number) : list A :=
  let len := Z.of_nat (length arr) in
  let rel := toInteger end_ in
  let final := if rel <? 0 then Z.max (len + rel) 0 else Z.min rel len in
  take (Z.to_nat final) arr.

(** The double quote. *)
Definition quote : string := String "034"%char "".

(** An [Error] object, and [String(err)]. *)
Record Error := mkError { name : string; message : string }.

Definition String_ (e : Error) : string :=
  if String.eqb (message e) "" then name e
  else name e +:+ ": " +:+ message e.

(** JSON values, as [JSON.stringify] and [NextResponse.json] are given
    them. An object lists its own properties in order. *)
Inductive JSON :=
| JNull
| JBool (b : bool)
| JNum (z : Z)
| JStr (s : string)
| JArr (items : list JSON)
| JObj (props : list (string * JSON)).

End JS.

(** ** Results and the monad of the repository *)

(** What a call comes back with: a value, or a thrown error. *)
Inductive result (A : Type) :=
| Ok (a : A)
| Throw (e : JS.Error).
Arguments Ok {A} a.
Arguments Throw {A} e.

Global Instance result_ret : MRet result := λ A a, Ok a.
Global Instance result_bind : MBind result := λ A B f r,
  match r with
  | Ok a => f a
  | Throw e => Throw e
  end.
Global Instance result_fmap : FMap result := λ A B f r,
  match r with
  | Ok a => Ok (f a)
  | Throw e => Throw e
  end.

(** The content directory [CONTENT_DIR]: [None] while it does not exist,
    otherwise its entries with the text of each file. *)
Abbreviation FS := (option (gmap string string)).

(** A computation over the file system. *)
Definition M (A : Type) : Type := FS → result A * FS.

Global Instance M_ret : MRet M := λ A a fs, (Ok a, fs).
Global Instance M_bind : MBind M := λ A B f m fs,
  match m fs with
  | (Ok a, fs') => f a fs'
  | (Throw e, fs') => (Throw e, fs')
  end.

Definition throw {A} (e : JS.Error) : M A := λ fs, (Throw e, fs).

(** A result of the platform, taken into a computation. *)
Definition lift {A} (r : result A) : M A := λ fs, (r, fs).

(** [try { body } catch (err) { handler(err) }] *)
Definition try_catch {A} (body : M A) (handler : JS.Error → M A) : M A := λ fs,
  match body fs with
  | (Ok a, fs') => (Ok a, fs')
  | (Throw e, fs') => handler e fs'
  end.

(** The value and the final state of a run. *)
Definition eval {A} (m : M A) (fs : FS) : result A := (m fs).1.
Definition exec {A} (m : M A) (fs : FS) : FS := (m fs).2.

(** ** The data model *)

(** The interface [Paper] of [src/types/paper.ts]; a field marked optional
    there is an [option] here. *)
Module Paper.
Record t := mk {
  id : string;
  title : string;
  authors : list string;
  abstract : string;
  summary : string;
  url : string;
  pdfUrl : option string;
  thumbnailUrl : option string;
  upvotes : Z;
  publishedAt : string;
  fetchedAt : string;
  tags : list string;
  arxivId : option string
}.
End Paper.
Abbreviation Paper := Paper.t.

(** The interface [DailyPapers] of [src/types/paper.ts]: one date's batch. *)
Module DailyPapers.
Record t := mk {
  date : string;
  papers : list Paper;
  generatedAt : string
}.
End DailyPapers.
Abbreviation DailyPapers := DailyPapers.t.

(** The objects as JSON values; an optional field that is undefined is
    left out, as [JSON.stringify] does. *)
Definition optional (key : string) (v : option string) : list (string * JS.JSON) :=
  match v with
  | Some s => [(key, JS.JStr s)]
  | None => []
  end.

Definition strings_toJSON (l : list string) : JS.JSON := JS.JArr (JS.JStr <$> l).

Definition paper_toJSON (p : Paper) : JS.JSON :=
  JS.JObj ([("id", JS.JStr (Paper.id p));
            ("title", JS.JStr (Paper.title p));
            ("authors", strings_toJSON (Paper.authors p));
            ("abstract", JS.JStr (Paper.abstract p));
            ("summary", JS.JStr (Paper.summary p));
            ("url", JS.JStr (Paper.url p))]
           ++ optional "pdfUrl" (Paper.pdfUrl p)
           ++ optional "thumbnailUrl" (Paper.thumbnailUrl p)
           ++ [("upvotes", JS.JNum (Paper.upvotes p));
               ("publishedAt", JS.JStr (Paper.publishedAt p));
               ("fetchedAt", JS.JStr (Paper.fetchedAt p));
               ("tags", strings_toJSON (Paper.tags p))]
           ++ optional "arxivId" (Paper.arxivId p)).

Definition papers_toJSON (l : list Paper) : JS.JSON := JS.JArr (paper_toJSON <$> l).

Definition daily_toJSON (d : DailyPapers) : JS.JSON :=
  JS.JObj [("date", JS.JStr (DailyPapers.date d));
           ("papers", papers_toJSON (DailyPapers.papers d));
           ("generatedAt", JS.JStr (DailyPapers.generatedAt d))].

(** The JSON codec of the platform, which the repository calls and does not
    implement: [JSON.stringify(value, null, 2)], and [JSON.parse(raw)] under
    the cast to [DailyPapers] that the code applies to its outcome. The cast
    checks nothing: the outcome is a document, or the null that the text
    "null" parses to ([None]); a text that is not JSON makes [JSON.parse]
    throw a [SyntaxError]. Values of other shapes, which the cast lets
    through as well, have no type here. *)
Class Platform := {
  JSON_stringify : JS.JSON → string;
  JSON_parse : string → result (option DailyPapers)
}.

(** ** The file system, seen from the content directory *)

Inductive path :=
| Dir
| File (entry : string).

(** [path.join(process.cwd(), "content", "papers")] *)
Definition CONTENT_DIR : path := Dir.

(** [path.join(dir, entry)], for an entry name that [path.join] leaves as
    it is. *)
Definition path_join (dir : path) (entry : string) : path :=
  match dir with
  | Dir => File entry
  | File e => File (e +:+ "/" +:+ entry)
  end.

(** The NUL code unit, which no path may hold. *)
Definition NUL : string := String "000"%char "".

(** A plain name: no path separator and no NUL in it. [path.join] leaves a
    plain name as it is, and the file system takes it, and it with ".json",
    for the name of an entry of the directory. *)
Definition plain_name (name : string) : bool :=
  negb (JS.includes name "/") && negb (JS.includes name NUL).

Definition ENOENT : JS.Error := JS.mkError "Error" "ENOENT: no such file or directory".
Definition ENOTDIR : JS.Error := JS.mkError "Error" "ENOTDIR: not a directory".
Definition EISDIR : JS.Error := JS.mkError "Error" "EISDIR: illegal operation on a directory".

Module fs.

Definition existsSync (p : path) : M bool := λ d,
  (Ok match p, d with
      | Dir, Some _ => true
      | File entry, Some files => bool_decide (is_Some (files !! entry))
      | _, None => false
      end, d).

(** [fs.mkdirSync(p, { recursive: true })]: no error when the directory is
    there already. Only the content directory itself can be made: its entries
    are regular files. *)
Definition mkdirSync (p : path) : M unit := λ d,
  match p with
  | Dir => (Ok tt, Some (default ∅ d))
  | File _ => (Throw ENOTDIR, d)
  end.

Definition readdirSync (p : path) : M (list string) := λ d,
  match p, d with
  | Dir, Some files => (Ok (elements (dom files)), d)
  | Dir, None => (Throw ENOENT, d)
  | File _, _ => (Throw ENOTDIR, d)
  end.

Definition readFileSync (p : path) : M string := λ d,
  match p with
  | Dir => (Throw EISDIR, d)
  | File entry =>
      match d ≫= (.!! entry) with
      | Some raw => (Ok raw, d)
      | None => (Throw ENOENT, d)
      end
  end.

Definition writeFileSync (p : path) (data : string) : M unit := λ d,
  match p, d with
  | Dir, _ => (Throw EISDIR, d)
  | File entry, Some files => (Ok tt, Some (<[entry := data]> files))
  | File _, None => (Throw ENOENT, d)
  end.

End fs.

(** ** The repository: [src/lib/papers.ts] *)

Section Repository.
Context `{Platform}.

Definition ensureContentDir : M unit :=
  b ← fs.existsSync CONTENT_DIR;
  if negb b then fs.mkdirSync CONTENT_DIR else mret tt.

Definition getAllDates : M (list string) :=
  ensureContentDir;;
  files ← fs.readdirSync CONTENT_DIR;
  mret (reverse (JS.sort ((λ f, JS.replace f ".json" "")
                            <$> filter (λ f, JS.endsWith f ".json") files))).

Definition getPapersForDate (date : string) : M (option DailyPapers) :=
  ensureContentDir;;
  let filePath := path_join CONTENT_DIR (date +:+ ".json") in
  b ← fs.existsSync filePath;
  if negb b then mret None
  else
    raw ← fs.readFileSync filePath;
    lift (JSON_parse raw).

Definition getLatestPapers : M (option DailyPapers) :=
  dates ← getAllDates;
  match dates with
  | [] => mret None
  | date0 :: _ => getPapersForDate date0
  end.

(** The loop of [getAllPapers]: [all] is the array filled so far. *)
Fixpoint getAllPapers_loop (dates : list string) (all : list Paper) : M (list Paper) :=
  match dates with
  | [] => mret all
  | date :: dates' =>
      daily ← getPapersForDate date;
      match daily with
      | Some daily => getAllPapers_loop dates' (all ++ DailyPapers.papers daily)
      | None => getAllPapers_loop dates' all
      end
  end.

Definition getAllPapers : M (list Paper) :=
  dates ← getAllDates;
  getAllPapers_loop dates [].

Definition getPaperById (id : string) : M (option Paper) :=
  all ← getAllPapers;
  mret (List.find (λ p, String.eqb (Paper.id p) id) all).

Definition searchPapers (query : string) : M (list Paper) :=
  all ← getAllPapers;
  let q := JS.toLowerCase query in
  mret (filter
          (λ p,
             JS.includes (JS.toLowerCase (Paper.title p)) q
             || JS.includes (JS.toLowerCase (Paper.abstract p)) q
             || JS.includes (JS.toLowerCase (Paper.summary p)) q
             || existsb (λ a, JS.includes (JS.toLowerCase a) q) (Paper.authors p)
             || existsb (λ t, JS.includes (JS.toLowerCase t) q) (Paper.tags p))
          all).

Definition saveDailyPapers (daily : DailyPapers) : M unit :=
  ensureContentDir;;
  let filePath := path_join CONTENT_DIR (DailyPapers.date daily +:+ ".json") in
  fs.writeFileSync filePath (JSON_stringify (daily_toJSON daily)).

End Repository.

(** ** HTTP responses *)

(** [NextResponse.json(body, { status })]: the status and the body that is
    sent, as a JSON value. *)
Record Response := mkResponse { status : Z; body : JS.JSON }.

Definition NextResponse_json (body : JS.JSON) (status : Z) : Response :=
  mkResponse status body.

Definition error_body (msg : string) : JS.JSON := JS.JObj [("error", JS.JStr msg)].

(** The value of [x] where JavaScript takes [x] for true: a string that is
    neither null nor empty. *)
Definition if_truthy (x : option string) : option string :=
  match x with
  | Some s => if JS.truthy_string s then Some s else None
  | None => None
  end.

(** ** The REST adapter: [src/app/api/papers/route.ts] *)

Module PapersRoute.
Section Route.
Context `{Platform}.

(** What the handler reads of the request: [searchParams.get(key)] for its
    three keys, null when the key is absent. *)
Record SearchParams := mkParams {
  date : option string;
  q : option string;
  limit : option string
}.

Definition GET (searchParams : SearchParams) : M Response :=
  let date := date searchParams in
  let query := q searchParams in
  let limitParam := limit searchParams in
  let limit : option JS.number := JS.parseInt <$> if_truthy limitParam in
  try_catch
    (match if_truthy query with
     | Some query =>
         results ← searchPapers query;
         let results :=
           match limit with
           | Some n => if JS.truthy n then JS.slice0 results n else results
           | None => results
           end in
         mret (NextResponse_json
                 (JS.JObj [("papers", papers_toJSON results);
                           ("total", JS.JNum (Z.of_nat (length results)))]) 200)
     | None =>
         match if_truthy date with
         | Some date =>
             daily ← getPapersForDate date;
             match daily with
             | None =>
                 mret (NextResponse_json
                         (error_body ("No papers found for date " +:+ date)) 404)
             | Some daily => mret (NextResponse_json (daily_toJSON daily) 200)
             end
         | None =>
             latest ← getLatestPapers;
             dates ← getAllDates;
             mret (NextResponse_json
                     (JS.JObj [("latest", from_option daily_toJSON JS.JNull latest);
                               ("availableDates", strings_toJSON dates)]) 200)
         end
     end)
    (λ err, mret (NextResponse_json (error_body "Internal server error") 500)).

End Route.
End PapersRoute.

(** ** The tool-call adapter: [src/app/api/mcp/route.ts] *)

Module McpRoute.

(** The interface [MCPToolResult] of [src/types/paper.ts]: a list of content
    items and an optional error flag. Every item the code builds has the
    type "text", so that an item is its text. *)
Record MCPToolResult := mkResult {
  content : list string;
  isError : option bool
}.

Definition result_toJSON (r : MCPToolResult) : JS.JSON :=
  JS.JObj ([("content",
             JS.JArr ((λ text, JS.JObj [("type", JS.JStr "text"); ("text", JS.JStr text)])
                        <$> content r))]
           ++ match isError r with
              | Some b => [("isError", JS.JBool b)]
              | None => []
              end).

(** The names of the catalog [TOOLS]. *)
Definition TOOLS : list string :=
  ["get_latest_papers"; "get_papers_by_date"; "get_paper_by_id"; "search_papers";
   "list_dates"].

(** The arguments of a call, [Record<string, unknown>] in the code, which
    casts each to the type its tool's schema declares; a key may be absent,
    the schema is not enforced. *)
Record Args := mkArgs {
  arg_date : option string;
  arg_id : option string;
  arg_query : option string;
  arg_limit : option Z
}.

Definition no_args : Args := mkArgs None None None None.

(** The body of the request as the handler types it: the two properties
    it reads, each of which may be absent. A value without properties (a
    number, a string, an array) has neither. The value null has no
    properties to read at all: it is the [None] of [option Body]. *)
Record Body := mkBody {
  name : option string;
  arguments : option Args
}.

(** A template literal's text for a value that may be undefined. *)
Definition template (x : option string) : string := default "undefined" x.

Definition TypeError_toLowerCase : JS.Error :=
  JS.mkError "TypeError" "Cannot read properties of undefined (reading 'toLowerCase')".

(** The error of [body.name] for the body null. *)
Definition TypeError_name : JS.Error :=
  JS.mkError "TypeError" "Cannot read properties of null (reading 'name')".

Section Route.
Context `{Platform}.

(** The [switch] of [executeTool], which runs inside its [try]. *)
Definition dispatch (name : string) (args : Args) : M MCPToolResult :=
  if String.eqb name "get_latest_papers" then
    let limit := JS.Num (default 10 (arg_limit args)) in
    daily ← getLatestPapers;
    match daily with
    | None => mret (mkResult ["No papers available yet."] None)
    | Some daily =>
        let papers := JS.slice0 (DailyPapers.papers daily) limit in
        mret (mkResult
                [JSON_stringify
                   (JS.JObj [("date", JS.JStr (DailyPapers.date daily));
                             ("papers", papers_toJSON papers);
                             ("total", JS.JNum (Z.of_nat (length (DailyPapers.papers daily))))])]
                None)
    end
  else if String.eqb name "get_papers_by_date" then
    let date := arg_date args in
    let limit := JS.Num <$> arg_limit args in
    daily ← getPapersForDate (template date);
    match daily with
    | None => mret (mkResult ["No papers found for date " +:+ template date] (Some true))
    | Some daily =>
        let papers :=
          match limit with
          | Some n => if JS.truthy n then JS.slice0 (DailyPapers.papers daily) n
                      else DailyPapers.papers daily
          | None => DailyPapers.papers daily
          end in
        mret (mkResult
                [JSON_stringify
                   (JS.JObj (optional "date" date ++ [("papers", papers_toJSON papers)]))]
                None)
    end
  else if String.eqb name "get_paper_by_id" then
    let id := arg_id args in
    paper ← match id with
            | Some id => getPaperById id
            | None => getAllPapers;; mret None
            end;
    match paper with
    | None =>
        mret (mkResult ["Paper " +:+ JS.quote +:+ template id +:+ JS.quote +:+ " not found"]
                (Some true))
    | Some paper => mret (mkResult [JSON_stringify (paper_toJSON paper)] None)
    end
  else if String.eqb name "search_papers" then
    let query := arg_query args in
    let limit := JS.Num (default 10 (arg_limit args)) in
    results ← match query with
              | Some query => searchPapers query
              | None => getAllPapers;; throw TypeError_toLowerCase
              end;
    let results := JS.slice0 results limit in
    mret (mkResult
            [JSON_stringify
               (JS.JObj (optional "query" query
                         ++ [("results", papers_toJSON results);
                             ("total", JS.JNum (Z.of_nat (length results)))]))]
            None)
  else if String.eqb name "list_dates" then
    dates ← getAllDates;
    mret (mkResult [JSON_stringify (JS.JObj [("dates", strings_toJSON dates)])] None)
  else
    mret (mkResult ["Unknown tool: " +:+ name] (Some true)).

Definition executeTool (name : string) (args : Args) : M MCPToolResult :=
  try_catch
    (dispatch name args)
    (λ err,
       mret (mkResult
               ["Error executing tool " +:+ JS.quote +:+ name +:+ JS.quote +:+ ": "
                +:+ JS.String_ err]
               (Some true))).

(** [request_json] is the outcome of [await request.json()]: the body
    (null, or a value with its properties), or the error of a body that is
    not JSON. Reading [body.name] of null throws, inside the [try]. *)
Definition POST (request_json : result (option Body)) : M Response :=
  try_catch
    (body ← lift request_json;
     match body with
     | None => throw TypeError_name
     | Some body =>
         match if_truthy (name body) with
         | None => mret (NextResponse_json (error_body "Missing required field: name") 400)
         | Some name =>
             result ← executeTool name (default no_args (arguments body));
             mret (NextResponse_json (result_toJSON result) 200)
         end
     end)
    (λ err, mret (NextResponse_json (error_body "Internal server error") 500)).

End Route.
End McpRoute.

(** ** The route of one paper: [src/app/api/papers/[id]/route.ts] *)

Module PaperRoute.
Section Route.
Context `{Platform}.

(** [id] is what [params] resolves to. *)
Definition GET (id : string) : M Response :=
  try_catch
    (paper ← getPaperById id;
     match paper with
     | None =>
         mret (NextResponse_json
                 (error_body ("Paper with id " +:+ JS.quote +:+ id +:+ JS.quote
                              +:+ " not found")) 404)
     | Some paper => mret (NextResponse_json (paper_toJSON paper) 200)
     end)
    (λ err, mret (NextResponse_json (error_body "Internal server error") 500)).

End Route.
End PaperRoute.

(** ** The page of one paper: [src/app/papers/[slug]/page.tsx] *)

Module PaperDetailPage.

(** The parameters of a page: [{ slug }]. *)
Record Params := mkParams { slug : string }.

Section Page.
Context `{Platform}.

Definition generateStaticParams : M (list Params) :=
  papers ← getAllPapers;
  mret ((λ p, mkParams (Paper.id p)) <$> papers).

End Page.
End PaperDetailPage.

(** ** The repository as functions of the directory's entries *)

(** The entries of the content directory; none while it does not exist. *)
Definition files (d : FS) : gmap string string := default ∅ d.

(** The names that [getAllDates] makes of a directory listing. *)
Definition dates_of (listing : list string) : list string :=
  reverse (JS.sort ((λ f, JS.replace f ".json" "")
                      <$> filter (λ f, JS.endsWith f ".json") listing)).

(** The papers a date contributes: none when its document is absent. *)
Definition papers_of (daily : option DailyPapers) : list Paper :=
  match daily with
  | Some daily => DailyPapers.papers daily
  | None => []
  end.

Section Reading.
Context `{Platform}.

(** What [getPapersForDate] reads in a directory with entries [fl]. *)
Definition read_document (fl : gmap string string) (date : string)
  : result (option DailyPapers) :=
  match fl !! (date +:+ ".json") with
  | None => Ok None
  | Some raw => JSON_parse raw
  end.

End Reading.

(** ** The naming convention of the date documents *)

Definition is_digit (c : ascii) : bool :=
  match JS.digit c with
  | Some _ => true
  | None => false
  end.

(** A string has the form YYYY-MM-DD. *)
Definition is_date (s : string) : bool :=
  match s with
  | String y1 (String y2 (String y3 (String y4 (String h1
      (String m1 (String m2 (String h2 (String d1 (String d2 ""))))))))) =>
      is_digit y1 && is_digit y2 && is_digit y3 && is_digit y4
      && Ascii.eqb h1 "-"
      && is_digit m1 && is_digit m2
      && Ascii.eqb h2 "-"
      && is_digit d1 && is_digit d2
  | _ => false
  end.

(** ** The words of the specification *)

(** [q] is a substring of [s]. *)
Definition substring_of (q s : string) : Prop := ∃ pre post, s = pre +:+ q +:+ post.

(** The paper matches the query: the lowercased query is a substring of the
    lowercased title, abstract or summary, or of the lowercase of some author
    or of some tag. *)
Definition Matches (query : string) (p : Paper) : Prop :=
  let q := JS.toLowerCase query in
  substring_of q (JS.toLowerCase (Paper.title p))
  ∨ substring_of q (JS.toLowerCase (Paper.abstract p))
  ∨ substring_of q (JS.toLowerCase (Paper.summary p))
  ∨ (∃ a, a ∈ Paper.authors p ∧ substring_of q (JS.toLowerCase a))
  ∨ (∃ t, t ∈ Paper.tags p ∧ substring_of q (JS.toLowerCase t)).

(** [r] is the first paper of [all] with the identifier [id], or nothing
    when [all] has no such paper. *)
Definition first_match (id : string) (all : list Paper) (r : option Paper) : Prop :=
  match r with
  | Some p =>
      ∃ before after,
        all = before ++ p :: after ∧ Paper.id p = id
        ∧ ∀ x, x ∈ before → Paper.id x ≠ id
  | None => ∀ x, x ∈ all → Paper.id x ≠ id
  end.

(** An entry name in which ".json" occurs as the suffix only. *)
Definition json_once (f : string) : Prop :=
  ∃ stem, f = stem +:+ ".json" ∧ JS.includes stem ".json" = false.

(** ** The adapters *)

(** The body of a search response. *)
Definition search_body (papers : list Paper) : JS.JSON :=
  JS.JObj [("papers", papers_toJSON papers);
           ("total", JS.JNum (Z.of_nat (length papers)))].

(** What the handler makes of the [limit] parameter and the results. *)
Definition limited (limitParam : option string) (results : list Paper) : list Paper :=
  match JS.parseInt <$> if_truthy limitParam with
  | Some n => if JS.truthy n then JS.slice0 results n else results
  | None => results
  end.

(** The result that [executeTool] makes of an error. *)
Definition error_result (name : string) (e : JS.Error) : McpRoute.MCPToolResult :=
  McpRoute.mkResult ["Error executing tool " +:+ JS.quote +:+ name +:+ JS.quote +:+ ": "
            +:+ JS.String_ e]
    (Some true).

(** The response to an error inside a handler. *)
Definition internal_error : Response :=
  mkResponse 500 (error_body "Internal server error").

(** The papers that [get_papers_by_date] shows under a limit. *)
Definition shown_by_date (limit : option Z) (papers : list Paper) : list Paper :=
  match JS.Num <$> limit with
  | Some n => if JS.truthy n then JS.slice0 papers n else papers
  | None => papers
  end.

(** The result for a name outside the catalog. *)
Definition unknown_tool (name : string) : McpRoute.MCPToolResult :=
  McpRoute.mkResult ["Unknown tool: " +:+ name] (Some true).

(** A computation that leaves the entries of the directory as they are. *)
Definition read_only {A} (m : M A) : Prop := ∀ d, files (exec m d) = files d.

(** A query that occurs, as it is written, in a field of the paper. *)
Definition occurs_in (query : string) (p : Paper) : Prop :=
  substring_of query (Paper.title p)
  ∨ substring_of query (Paper.abstract p)
  ∨ substring_of query (Paper.summary p)
  ∨ (∃ a, a ∈ Paper.authors p ∧ substring_of query a)
  ∨ (∃ t, t ∈ Paper.tags p ∧ substring_of query t).

(** ** A JSON codec

    An instance of the platform's codec, for running the repository on
    concrete stores: the text [JSON.stringify(value, null, 2)] writes, and
    a parser of JSON text (whole numbers only). The cast of the parsed value
    to [DailyPapers] is made good here by reading the fields off the value;
    null is let through as the cast lets it. A value of another shape, which
    the cast would let through as well, has no type in the model: the
    instance refuses it, and nothing below runs it on such a text. *)

Module Codec.
Import JS.

Definition backslash : string := String "092"%char "".
Definition newline : string := String "010"%char "".

Definition hex (n : N) : ascii := ascii_of_N (if (n <? 10)%N then 48 + n else 87 + n).

(** A code unit inside a string literal. *)
Definition escape (c : ascii) : string :=
  let n := N_of_ascii c in
  if (n =? 34)%N then backslash +:+ quote
  else if (n =? 92)%N then backslash +:+ backslash
  else if (n =? 8)%N then backslash +:+ "b"
  else if (n =? 9)%N then backslash +:+ "t"
  else if (n =? 10)%N then backslash +:+ "n"
  else if (n =? 12)%N then backslash +:+ "f"
  else if (n =? 13)%N then backslash +:+ "r"
  else if (n <? 32)%N then
    backslash +:+ "u00" +:+ String (hex (n / 16)) (String (hex (n mod 16)) "")
  else String c "".

Fixpoint escaped (s : string) : string :=
  match s with
  | "" => ""
  | String c s' => escape c +:+ escaped s'
  end.

Definition quoted (s : string) : string := quote +:+ escaped s +:+ quote.

(** The decimal digits of a natural number, most significant first. *)
Fixpoint decimal_digits (fuel : nat) (n : N) (acc : string) : string :=
  match fuel with
  | O => acc
  | S fuel =>
      let acc := String (ascii_of_N (48 + n mod 10)) acc in
      if (n <? 10)%N then acc else decimal_digits fuel (n / 10) acc
  end.

Definition decimal (z : Z) : string :=
  let n := Z.to_N (Z.abs z) in
  (if z <? 0 then "-" else "") +:+ decimal_digits (S (N.to_nat (N.log2 n))) n "".

(** The lines of an array or an object, one member each. *)
Fixpoint lines (l : list string) : string :=
  match l with
  | [] => ""
  | [x] => x
  | x :: l' => x +:+ "," +:+ newline +:+ lines l'
  end.

(** [JSON.stringify(v, null, 2)], at the indentation [indent]. *)
Fixpoint stringify_at (indent : string) (v : JSON) : string :=
  let inner := indent +:+ "  " in
  match v with
  | JNull => "null"
  | JBool true => "true"
  | JBool false => "false"
  | JNum z => decimal z
  | JStr s => quoted s
  | JArr [] => "[]"
  | JArr items =>
      "[" +:+ newline
      +:+ lines (List.map (λ item, inner +:+ stringify_at inner item) items)
      +:+ newline +:+ indent +:+ "]"
  | JObj [] => "{}"
  | JObj props =>
      "{" +:+ newline
      +:+ lines (List.map (λ kv, inner +:+ quoted (fst kv) +:+ ": "
                                 +:+ stringify_at inner (snd kv)) props)
      +:+ newline +:+ indent +:+ "}"
  end.

Definition stringify (v : JSON) : string := stringify_at "" v.

(** *** Parsing *)

Definition is_ws (c : ascii) : bool :=
  let n := N_of_ascii c in
  ((n =? 32) || (n =? 9) || (n =? 10) || (n =? 13))%N.

Fixpoint skip_ws (s : string) : string :=
  match s with
  | "" => ""
  | String c s' => if is_ws c then skip_ws s' else s
  end.

Definition hex_value (c : ascii) : option N :=
  let n := N_of_ascii c in
  if ((48 <=? n) && (n <=? 57))%N then Some (n - 48)%N
  else if ((97 <=? n) && (n <=? 102))%N then Some (n - 87)%N
  else if ((65 <=? n) && (n <=? 70))%N then Some (n - 55)%N
  else None.

(** The code unit of a simple escape. *)
Definition unescape (e : ascii) : option ascii :=
  let n := N_of_ascii e in
  if (n =? 34)%N then Some e
  else if (n =? 92)%N then Some e
  else if (n =? 47)%N then Some e
  else if (n =? 98)%N then Some "008"%char
  else if (n =? 116)%N then Some "009"%char
  else if (n =? 110)%N then Some "010"%char
  else if (n =? 102)%N then Some "012"%char
  else if (n =? 114)%N then Some "013"%char
  else None.

(** A string literal after its opening quote: its text and what follows
    the closing quote. *)
Fixpoint string_body (s : string) : option (string * string) :=
  match s with
  | "" => None
  | String c s' =>
      let n := N_of_ascii c in
      if (n =? 34)%N then Some ("", s')
      else if (n =? 92)%N then
        match s' with
        | String "u" (String h1 (String h2 (String h3 (String h4 s'')))) =>
            match hex_value h1, hex_value h2, hex_value h3, hex_value h4 with
            | Some 0%N, Some 0%N, Some a, Some b =>
                '(str, rest) ← string_body s'';
                Some (String (ascii_of_N (16 * a + b)) str, rest)
            | _, _, _, _ => None
            end
        | String e s'' =>
            u ← unescape e;
            '(str, rest) ← string_body s'';
            Some (String u str, rest)
        | "" => None
        end
      else if (n <? 32)%N then None
      else
        '(str, rest) ← string_body s';
        Some (String c str, rest)
  end.

(** A whole number: an optional minus sign, then 0 or digits that do not
    begin with 0. *)
Fixpoint digits_rest (acc : Z) (s : string) : Z * string :=
  match s with
  | "" => (acc, "")
  | String c s' =>
      match digit c with
      | Some d => digits_rest (10 * acc + d) s'
      | None => (acc, s)
      end
  end.

Definition natural (s : string) : option (Z * string) :=
  match s with
  | "" => None
  | String c s' =>
      match digit c with
      | Some 0 => Some (0, s')
      | Some d => Some (digits_rest d s')
      | None => None
      end
  end.

Definition number_literal (s : string) : option (JSON * string) :=
  match s with
  | String "-" s' => '(v, rest) ← natural s'; Some (JNum (- v), rest)
  | _ => '(v, rest) ← natural s; Some (JNum v, rest)
  end.

Definition literal (word : string) (v : JSON) (s : string) : option (JSON * string) :=
  if startsWith s word then Some (v, skip (String.length word) s) else None.

Fixpoint value (fuel : nat) (s : string) : option (JSON * string) :=
  match fuel with
  | O => None
  | S fuel =>
      match skip_ws s with
      | "" => None
      | String c rest as s1 =>
          let n := N_of_ascii c in
          if (n =? 91)%N then
            match skip_ws rest with
            | String "]" rest' => Some (JArr [], rest')
            | rest' => '(items, rest'') ← elements fuel rest'; Some (JArr items, rest'')
            end
          else if (n =? 123)%N then
            match skip_ws rest with
            | String "}" rest' => Some (JObj [], rest')
            | rest' => '(props, rest'') ← members fuel rest'; Some (JObj props, rest'')
            end
          else if (n =? 34)%N then
            '(str, rest') ← string_body rest; Some (JStr str, rest')
          else if (n =? 110)%N then literal "null" JNull s1
          else if (n =? 116)%N then literal "true" (JBool true) s1
          else if (n =? 102)%N then literal "false" (JBool false) s1
          else number_literal s1
      end
  end
with elements (fuel : nat) (s : string) : option (list JSON * string) :=
  match fuel with
  | O => None
  | S fuel =>
      '(v, rest) ← value fuel s;
      match skip_ws rest with
      | String "," rest' => '(vs, rest'') ← elements fuel rest'; Some (v :: vs, rest'')
      | String "]" rest' => Some ([v], rest')
      | _ => None
      end
  end
with members (fuel : nat) (s : string) : option (list (string * JSON) * string) :=
  match fuel with
  | O => None
  | S fuel =>
      match skip_ws s with
      | String c rest =>
          if (N_of_ascii c =? 34)%N then
            '(key, rest) ← string_body rest;
            match skip_ws rest with
            | String ":" rest =>
                '(v, rest) ← value fuel rest;
                match skip_ws rest with
                | String "," rest' =>
                    '(props, rest'') ← members fuel rest'; Some ((key, v) :: props, rest'')
                | String "}" rest' => Some ([(key, v)], rest')
                | _ => None
                end
            | _ => None
            end
          else None
      | "" => None
      end
  end.

(** [JSON.parse(text)]: [None] for a text that is not JSON. *)
Definition parse (text : string) : option JSON :=
  match value (S (String.length text)) text with
  | Some (v, rest) => if String.eqb (skip_ws rest) "" then Some v else None
  | None => None
  end.

(** *** The values as documents *)

Fixpoint get (key : string) (props : list (string * JSON)) : option JSON :=
  match props with
  | [] => None
  | (k, v) :: props' => if String.eqb k key then Some v else get key props'
  end.

Definition as_string (v : JSON) : option string :=
  match v with
  | JStr s => Some s
  | _ => None
  end.

Definition as_strings (v : JSON) : option (list string) :=
  match v with
  | JArr items => mapM as_string items
  | _ => None
  end.

Definition as_number (v : JSON) : option Z :=
  match v with
  | JNum z => Some z
  | _ => None
  end.

(** An optional string field: absent, or a string. *)
Definition optional_field (key : string) (props : list (string * JSON))
  : option (option string) :=
  match get key props with
  | None => Some None
  | Some v => Some <$> as_string v
  end.

Definition as_paper (v : JSON) : option Paper :=
  match v with
  | JObj props =>
      id ← get "id" props ≫= as_string;
      title ← get "title" props ≫= as_string;
      authors ← get "authors" props ≫= as_strings;
      abstract ← get "abstract" props ≫= as_string;
      summary ← get "summary" props ≫= as_string;
      url ← get "url" props ≫= as_string;
      pdfUrl ← optional_field "pdfUrl" props;
      thumbnailUrl ← optional_field "thumbnailUrl" props;
      upvotes ← get "upvotes" props ≫= as_number;
      publishedAt ← get "publishedAt" props ≫= as_string;
      fetchedAt ← get "fetchedAt" props ≫= as_string;
      tags ← get "tags" props ≫= as_strings;
      arxivId ← optional_field "arxivId" props;
      Some (Paper.mk id title authors abstract summary url pdfUrl thumbnailUrl
              upvotes publishedAt fetchedAt tags arxivId)
  | _ => None
  end.

Definition as_daily (v : JSON) : option DailyPapers :=
  match v with
  | JObj props =>
      date ← get "date" props ≫= as_string;
      papers ← match get "papers" props with
               | Some (JArr items) => mapM as_paper items
               | _ => None
               end;
      generatedAt ← get "generatedAt" props ≫= as_string;
      Some (DailyPapers.mk date papers generatedAt)
  | _ => None
  end.

Definition SyntaxError : Error := mkError "SyntaxError" "Unexpected token in JSON".
Definition TypeError : Error := mkError "TypeError" "not a DailyPapers document".

Definition parse_daily (raw : string) : result (option DailyPapers) :=
  match parse raw with
  | None => Throw SyntaxError
  | Some JNull => Ok None
  | Some v =>
      match as_daily v with
      | Some daily => Ok (Some daily)
      | None => Throw TypeError
      end
  end.

End Codec.

Definition codec : Platform := {|
  JSON_stringify := Codec.stringify;
  JSON_parse := Codec.parse_daily
|}.

(** ** A store to run the code on: the fixtures of the repository's tests *)

Module Fixtures.

Definition mockPaper1 : Paper := {|
  Paper.id := "2502.00001";
  Paper.title := "Attention Is All You Need";
  Paper.authors := ["Alice Smith"; "Bob Jones"; "Carol White"];
  Paper.abstract := "We propose the Transformer model based solely on attention mechanisms.";
  Paper.summary := "A groundbreaking paper introducing the Transformer architecture.";
  Paper.url := "https://huggingface.co/papers/2502.00001";
  Paper.pdfUrl := Some "https://arxiv.org/pdf/2502.00001";
  Paper.thumbnailUrl := None;
  Paper.upvotes := 150;
  Paper.publishedAt := "2025-02-01T00:00:00.000Z";
  Paper.fetchedAt := "2025-02-01T12:00:00.000Z";
  Paper.tags := ["NLP"; "Transformers"];
  Paper.arxivId := Some "2502.00001"
|}.

Definition mockPaper2 : Paper := {|
  Paper.id := "2502.00002";
  Paper.title := "BERT: Pre-training Deep Bidirectional Transformers";
  Paper.authors := ["Dave Brown"];
  Paper.abstract := "We introduce BERT, a new language representation model.";
  Paper.summary := "BERT achieves state-of-the-art on many NLP tasks.";
  Paper.url := "https://huggingface.co/papers/2502.00002";
  Paper.pdfUrl := Some "https://arxiv.org/pdf/2502.00002";
  Paper.thumbnailUrl := None;
  Paper.upvotes := 200;
  Paper.publishedAt := "2025-02-02T00:00:00.000Z";
  Paper.fetchedAt := "2025-02-02T12:00:00.000Z";
  Paper.tags := ["NLP"; "BERT"];
  Paper.arxivId := Some "2502.00002"
|}.

Definition mockPaper3 : Paper := {|
  Paper.id := "2503.00003";
  Paper.title := "GPT-4 Technical Report";
  Paper.authors := ["OpenAI Team"];
  Paper.abstract := "GPT-4 is a large multimodal model.";
  Paper.summary := "GPT-4 shows remarkable capabilities across many tasks.";
  Paper.url := "https://huggingface.co/papers/2503.00003";
  Paper.pdfUrl := None;
  Paper.thumbnailUrl := None;
  Paper.upvotes := 500;
  Paper.publishedAt := "2025-03-01T00:00:00.000Z";
  Paper.fetchedAt := "2025-03-01T12:00:00.000Z";
  Paper.tags := ["LLM"; "GPT"];
  Paper.arxivId := Some "2503.00003"
|}.

Definition daily1 : DailyPapers := {|
  DailyPapers.date := "2025-02-01";
  DailyPapers.papers := [mockPaper1; mockPaper2];
  DailyPapers.generatedAt := "2025-02-01T12:00:00.000Z"
|}.

Definition daily2 : DailyPapers := {|
  DailyPapers.date := "2025-03-01";
  DailyPapers.papers := [mockPaper3];
  DailyPapers.generatedAt := "2025-03-01T12:00:00.000Z"
|}.

(** The content directory after both batches were saved, next to a file
    that is no date document. *)
Definition store : FS :=
  Some (<["2025-02-01.json" := Codec.stringify (daily_toJSON daily1)]>
        (<["2025-03-01.json" := Codec.stringify (daily_toJSON daily2)]>
         {["README.md" := "# papers"]})).


(** All papers of the store, most recent date first. *)
Definition all_papers : list Paper :=
  [mockPaper3; mockPaper1; mockPaper2].

(** A later batch for the first date of the store. *)
Definition daily1_again : DailyPapers :=
  DailyPapers.mk "2025-02-01" [mockPaper2] "2025-02-02T08:00:00.000Z".

(** A directory with a document that is not JSON. *)
Definition broken_store : FS :=
  Some (<["2025-04-01.json" := "{ not json"]> (default ∅ store)).

(** A directory whose oldest document is not JSON: the documents of the two
    dates after it can be read. *)
Definition stale_store : FS :=
  Some (<["2025-01-01.json" := "{ not json"]> (default ∅ store)).

(** A directory with a document that holds the text of null. *)
Definition null_store : FS :=
  Some (<["2025-01-01.json" := "null"]> (default ∅ store)).

(** The identifiers of the papers a search in the store returns. *)
Definition found (query : string) : result (list string) :=
  fmap (M:=result) (fmap Paper.id) (eval (searchPapers (H:=codec) query) store).

End Fixtures.

(** * Properties *)

(** ** Strings *)

Section Strings.
Implicit Types s t p q pat : string.

Lemma app_empty_l s : "" +:+ s = s.
Proof. reflexivity. Qed.

Lemma app_String a s t : String a s +:+ t = String a (s +:+ t).
Proof. reflexivity. Qed.


Lemma app_assoc_string s t p : (s +:+ t) +:+ p = s +:+ (t +:+ p).
Proof. induction s as [|a s IH]; [done|]. by rewrite !app_String, IH. Qed.

Lemma length_app_string s t :
  String.length (s +:+ t) = (String.length s + String.length t)%nat.
Proof. induction s as [|a s IH]; [done|]. rewrite app_String. simpl. by rewrite IH. Qed.

(** [startsWith], [includes] and [endsWith] decide what their names say. *)
Lemma startsWith_spec s p : JS.startsWith s p = true ↔ ∃ t, s = p +:+ t.
Proof.
  revert s. induction p as [|a p IH]; intros s; simpl.
  - split; [|done]. intros _. by exists s.
  - destruct s as [|b s].
    + split; [done|]. intros [t Ht]. by rewrite app_String in Ht.
    + destruct (Ascii.eqb_spec a b) as [->|Hab].
      * rewrite IH. split; intros [t Ht]; exists t.
        -- by rewrite app_String, Ht.
        -- rewrite app_String in Ht. by simplify_eq.
      * split; [done|]. intros [t Ht]. rewrite app_String in Ht. by simplify_eq.
Qed.

Lemma startsWith_app s t : JS.startsWith (s +:+ t) s = true.
Proof. apply startsWith_spec. by exists t. Qed.

Lemma includes_spec s q :
  JS.includes s q = true ↔ ∃ pre post, s = pre +:+ q +:+ post.
Proof.
  induction s as [|a s IH]; simpl.
  - rewrite orb_false_r, startsWith_spec. split.
    + intros [t Ht]. by exists "", t.
    + intros [[|c pre] [post Hs]]; [by exists post|].
      by rewrite app_String in Hs.
  - rewrite orb_true_iff, startsWith_spec, IH. split.
    + intros [[t Ht]|(pre & post & Hs)].
      * by exists "", t.
      * exists (String a pre), post. by rewrite app_String, Hs.
    + intros ([|c pre] & post & Hs).
      * left. by exists post.
      * right. exists pre, post. rewrite app_String in Hs. by simplify_eq.
Qed.

Lemma includes_empty s : JS.includes s "" = true.
Proof. by destruct s. Qed.

Lemma endsWith_spec s suffix : JS.endsWith s suffix = true ↔ ∃ pre, s = pre +:+ suffix.
Proof.
  induction s as [|a s IH]; cbn [JS.endsWith].
  - rewrite orb_false_r, String.eqb_eq. split.
    + intros <-. by exists "".
    + intros [[|c pre] Hs]; [done|]. by rewrite app_String in Hs.
  - rewrite orb_true_iff, String.eqb_eq, IH. split.
    + intros [<-|[pre ->]]; [by exists ""|]. by exists (String a pre).
    + intros [[|c pre] Hs]; [by left|].
      right. exists pre. rewrite app_String in Hs. by simplify_eq.
Qed.

Lemma toLowerCase_empty : JS.toLowerCase "" = "".
Proof. reflexivity. Qed.

(** Where [pat] fits into [s], appending to [s] does not change whether
    [s] starts with it. *)
Lemma startsWith_app_long s t pat :
  (String.length pat ≤ String.length s)%nat →
  JS.startsWith (s +:+ t) pat = JS.startsWith s pat.
Proof.
  revert s. induction pat as [|a pat IH]; intros s Hlen; [done|].
  destruct s as [|b s]; simpl in Hlen; [lia|].
  rewrite app_String. simpl. destruct (Ascii.eqb a b); [|done].
  apply IH. lia.
Qed.




Lemma skip_length_app s t : JS.skip (String.length s) (s +:+ t) = t.
Proof. induction s as [|a s IH]; [by destruct t|]. by rewrite app_String. Qed.


Lemma startsWith_cons (a b : ascii) s p :
  JS.startsWith (String b s) (String a p) = Ascii.eqb a b && JS.startsWith s p.
Proof. simpl. by destruct (Ascii.eqb a b). Qed.

Lemma startsWith_empty_cons (a : ascii) p : JS.startsWith "" (String a p) = false.
Proof. reflexivity. Qed.

(** An occurrence of ".json" cannot begin in [s] and run over its end into
    a following ".json": the full stop is the pattern's first unit only. *)
Lemma startsWith_json_app s :
  s ≠ "" → JS.startsWith (s +:+ ".json") ".json" = JS.startsWith s ".json".
Proof.
  intros Hs. destruct (le_lt_dec 5 (String.length s)) as [Hlen|Hlen].
  { by apply startsWith_app_long. }
  destruct s as [|c1 [|c2 [|c3 [|c4 [|c5 s]]]]]; [done|..]; cbn [String.length] in Hlen;
    [| | | |lia];
    rewrite !app_String, app_empty_l, !startsWith_cons, ?startsWith_empty_cons;
    repeat match goal with
           | |- context [Ascii.eqb ?a ?c] => is_var c; destruct (Ascii.eqb a c)
           end; reflexivity.
Qed.

(** Stripping: where ".json" occurs only as the suffix, [replace] removes
    the suffix. *)
Lemma replace_json_suffix stem :
  JS.includes stem ".json" = false →
  JS.replace (stem +:+ ".json") ".json" "" = stem.
Proof.
  induction stem as [|a stem IH]; intros Hinc; [done|].
  cbn [JS.includes] in Hinc. apply orb_false_iff in Hinc as [Hsw Hinc].
  rewrite app_String. cbn [JS.replace].
  rewrite <-app_String, startsWith_json_app, Hsw by done.
  by rewrite IH.
Qed.



End Strings.



(** ** Runs of the repository *)

(** Results of the platform's monad, unfolded. *)
Ltac result_simpl := simpl in *; cbv [mret result_ret] in *; simpl in *.

Section RepositoryFacts.
Context `{Platform}.

Lemma ensureContentDir_run (d : FS) : ensureContentDir d = (Ok tt, Some (files d)).
Proof. by destruct d. Qed.

Lemma getAllDates_run (d : FS) :
  getAllDates d = (Ok (dates_of (elements (dom (files d)))), Some (files d)).
Proof. by destruct d. Qed.

Lemma getPapersForDate_run (date : string) (d : FS) :
  getPapersForDate date d = (read_document (files d) date, Some (files d)).
Proof.
  unfold getPapersForDate, read_document, mbind, M_bind.
  rewrite ensureContentDir_run. simpl.
  destruct (files d !! (date +:+ ".json")) as [raw|] eqn:E; simpl; [|done].
  by rewrite E.
Qed.

Lemma getAllPapers_loop_run (fl : gmap string string) (dates : list string) (all : list Paper) :
  getAllPapers_loop dates all (Some fl)
  = (docs ← mapM (read_document fl) dates; mret (all ++ concat (papers_of <$> docs)),
     Some fl).
Proof.
  revert all. induction dates as [|date dates IH]; intros all; simpl.
  - by rewrite app_nil_r.
  - unfold mbind at 1, M_bind. rewrite getPapersForDate_run. simpl.
    destruct (read_document fl date) as [[daily|]|e]; simpl; [| |done].
    + rewrite IH. destruct (mapM _ dates); simpl; [|done].
      by rewrite app_assoc.
    + rewrite IH. by destruct (mapM _ dates).
Qed.

Lemma getAllPapers_run (d : FS) :
  getAllPapers d
  = (docs ← mapM (read_document (files d)) (dates_of (elements (dom (files d))));
     mret (concat (papers_of <$> docs)),
     Some (files d)).
Proof.
  unfold getAllPapers, mbind at 1, M_bind. rewrite getAllDates_run.
  by rewrite getAllPapers_loop_run.
Qed.

End RepositoryFacts.

(** ** The listing of dates *)

Lemma elem_of_dates_of (x : string) (listing : list string) :
  x ∈ dates_of listing
  ↔ ∃ f, f ∈ listing ∧ JS.endsWith f ".json" = true ∧ x = JS.replace f ".json" "".
Proof.
  unfold dates_of, JS.sort.
  rewrite elem_of_reverse, merge_sort_Permutation, list_elem_of_fmap.
  split.
  - intros (f & -> & [Hf ?]%list_elem_of_filter). exists f.
    by apply Is_true_true in Hf.
  - intros (f & ? & Hf & ->). exists f. split; [done|].
    apply list_elem_of_filter. by rewrite Hf.
Qed.

(** The listing is in descending order, whatever the entries. *)
Lemma dates_of_descending (listing : list string) :
  Sorted (flip String.le) (dates_of listing).
Proof. apply Sorted_reverse, (Sorted_merge_sort String.le). Qed.

Lemma digit_not_dot (c : ascii) : is_digit c = true → Ascii.eqb "." c = false.
Proof. by destruct c as [[] [] [] [] [] [] [] []]. Qed.

Lemma is_date_no_json (s : string) : is_date s = true → JS.includes s ".json" = false.
Proof.
  destruct s as [|y1 [|y2 [|y3 [|y4 [|h1 [|m1 [|m2 [|h2 [|d1 [|d2 [|? ?]]]]]]]]]]];
    try done.
  unfold is_date. intros Hd. repeat (apply andb_true_iff in Hd as [Hd ?]).
  repeat match goal with
         | E : Ascii.eqb _ "-" = true |- _ => apply Ascii.eqb_eq in E as ->
         end.
  cbn [JS.includes]. rewrite !startsWith_cons, startsWith_empty_cons.
  rewrite (digit_not_dot y1), (digit_not_dot y2), (digit_not_dot y3), (digit_not_dot y4),
    (digit_not_dot m1), (digit_not_dot m2), (digit_not_dot d1), (digit_not_dot d2) by done.
  reflexivity.
Qed.

Lemma digit_plain (c : ascii) :
  is_digit c = true → Ascii.eqb "/" c = false ∧ Ascii.eqb "000" c = false.
Proof. by destruct c as [[] [] [] [] [] [] [] []]. Qed.

(** A date YYYY-MM-DD is a plain name. *)
Lemma is_date_plain (s : string) : is_date s = true → plain_name s = true.
Proof.
  destruct s as [|y1 [|y2 [|y3 [|y4 [|h1 [|m1 [|m2 [|h2 [|d1 [|d2 [|? ?]]]]]]]]]]];
    try done.
  unfold is_date. intros Hd. repeat (apply andb_true_iff in Hd as [Hd ?]).
  repeat match goal with
         | E : Ascii.eqb _ "-" = true |- _ => apply Ascii.eqb_eq in E as ->
         end.
  unfold plain_name, NUL. cbn [JS.includes].
  rewrite !startsWith_cons, !startsWith_empty_cons.
  destruct (digit_plain y1) as [-> ->]; [done|].
  destruct (digit_plain y2) as [-> ->]; [done|].
  destruct (digit_plain y3) as [-> ->]; [done|].
  destruct (digit_plain y4) as [-> ->]; [done|].
  destruct (digit_plain m1) as [-> ->]; [done|].
  destruct (digit_plain m2) as [-> ->]; [done|].
  destruct (digit_plain d1) as [-> ->]; [done|].
  destruct (digit_plain d2) as [-> ->]; [done|].
  reflexivity.
Qed.

Lemma elem_of_listing (d : FS) (f : string) :
  f ∈ elements (dom (files d)) ↔ is_Some (files d !! f).
Proof. by rewrite elem_of_elements, elem_of_dom. Qed.

(** Where ".json" occurs in the names only as their suffix, no name is
    listed twice. *)
Lemma dates_of_NoDup (listing : list string) :
  NoDup listing
  → (∀ f, f ∈ listing → JS.endsWith f ".json" = true → json_once f)
  → NoDup (dates_of listing).
Proof.
  intros Hnodup Honce. unfold dates_of, JS.sort.
  rewrite reverse_Permutation, merge_sort_Permutation.
  apply NoDup_fmap_2_strong; [|by apply NoDup_filter].
  intros f g [Hf ?]%list_elem_of_filter [Hg ?]%list_elem_of_filter Hfg.
  apply Is_true_true in Hf, Hg.
  destruct (Honce f) as (stem & -> & ?); [done..|].
  destruct (Honce g) as (stem' & -> & ?); [done..|].
  rewrite !replace_json_suffix in Hfg by done. by subst.
Qed.

Lemma StronglySorted_NoDup_strict {A} (R : relation A) (l : list A) :
  StronglySorted R l → NoDup l → StronglySorted (λ x y, R x y ∧ x ≠ y) l.
Proof.
  induction 1 as [|x l Hsorted IH Hall]; intros Hnodup; [constructor|].
  apply NoDup_cons in Hnodup as [Hx Hnodup].
  constructor; [by apply IH|].
  rewrite Forall_forall in Hall |- *. intros y Hy. split; [by apply Hall|].
  by intros ->.
Qed.

(** X4. In a directory whose entries have ".json" as their suffix only, as
    every entry named after a date has, the listing is strictly descending and
    free of duplicates. *)
Lemma getAllDates_strict (d : FS) :
  (∀ f, is_Some (files d !! f) → JS.endsWith f ".json" = true → json_once f)
  → ∃ dates,
      eval getAllDates d = Ok dates
      ∧ StronglySorted (λ x y, String.le y x ∧ x ≠ y) dates
      ∧ NoDup dates.
Proof.
  intros Honce. exists (dates_of (elements (dom (files d)))).
  split; [by unfold eval; rewrite getAllDates_run|].
  assert (NoDup (dates_of (elements (dom (files d))))) as Hnodup.
  { apply dates_of_NoDup; [apply NoDup_elements|].
    intros f Hf. apply Honce. by apply elem_of_listing. }
  split; [|done].
  apply (StronglySorted_NoDup_strict (flip String.le)); [|done].
  apply Sorted_StronglySorted; [apply _|apply dates_of_descending].
Qed.

(** C5, at a directory that holds the two entries "a.json.json" and
    ".jsona.json": [getAllDates] removes the first ".json" of each name, not
    its suffix, and returns the same name twice. *)
Theorem getAllDates_duplicate :
  eval getAllDates (Some {[ "a.json.json" := "{}"; ".jsona.json" := "{}" ]})
  = Ok ["a.json"; "a.json"].
Proof. vm_compute. reflexivity. Qed.




(** ** The aggregate of all papers *)

Section Aggregate.
Context `{Platform}.

Lemma eval_getAllDates (d : FS) : eval getAllDates d = Ok (dates_of (elements (dom (files d)))).
Proof. unfold eval. by rewrite getAllDates_run. Qed.

Lemma eval_getPapersForDate (date : string) (d : FS) :
  eval (getPapersForDate date) d = read_document (files d) date.
Proof. unfold eval. by rewrite getPapersForDate_run. Qed.

Lemma eval_getAllPapers (d : FS) :
  eval getAllPapers d
  = (dates ← eval getAllDates d;
     docs ← mapM (λ date, eval (getPapersForDate date) d) dates;
     mret (concat (papers_of <$> docs))).
Proof.
  rewrite eval_getAllDates. unfold eval at 1. rewrite getAllPapers_run. simpl.
  generalize (dates_of (elements (dom (files d)))). intros dates.
  assert (mapM (read_document (files d)) dates
          = mapM (λ date, eval (getPapersForDate date) d) dates) as ->; [|done].
  induction dates as [|date dates IH]; [done|].
  simpl. by rewrite eval_getPapersForDate, IH.
Qed.

(** [getLatestPapers] is [getPapersForDate] at the head of the listing,
    and null when the listing is empty. *)
Lemma eval_getLatestPapers (d : FS) :
  eval getLatestPapers d
  = (dates ← eval getAllDates d;
     match dates with
     | [] => Ok None
     | date0 :: _ => eval (getPapersForDate date0) d
     end).
Proof.
  rewrite eval_getAllDates. unfold eval at 1, getLatestPapers, mbind at 1, M_bind.
  rewrite getAllDates_run. simpl.
  destruct (dates_of _) as [|date0 dates]; [done|].
  by rewrite getPapersForDate_run, eval_getPapersForDate.
Qed.

(** C3. [getAllPapers] returns the concatenation, over the dates of
    [getAllDates] in their order, of the papers of each date's document, a
    date without a document contributing nothing ([papers_of None] is
    empty) instead of an error; its length is the sum of the lengths of
    those lists. An error of reading a document is the error of the call. *)
Theorem getAllPapers_concat (d : FS) :
  eval getAllPapers d
  = (dates ← eval getAllDates d;
     docs ← mapM (λ date, eval (getPapersForDate date) d) dates;
     mret (concat (papers_of <$> docs)))
  ∧ length <$> eval getAllPapers d
    = (dates ← eval getAllDates d;
       docs ← mapM (λ date, eval (getPapersForDate date) d) dates;
       mret (sum_list (length ∘ papers_of <$> docs))).
Proof.
  split; [apply eval_getAllPapers|].
  rewrite eval_getAllPapers. destruct (eval getAllDates d) as [dates|e]; [|done].
  simpl. destruct (mapM _ dates) as [docs|e]; [|done]. simpl. f_equal.
  by rewrite length_concat, list_fmap_compose.
Qed.

End Aggregate.

(** ** Lookup by identifier *)

Lemma find_first_match (id : string) (all : list Paper) :
  first_match id all (List.find (λ p, String.eqb (Paper.id p) id) all).
Proof.
  induction all as [|p all IH]; simpl.
  - by intros x ?%elem_of_nil.
  - destruct (String.eqb_spec (Paper.id p) id) as [Hid|Hid].
    + exists [], all. split_and!; [done..|]. by intros x ?%elem_of_nil.
    + destruct (List.find _ all) as [r|]; simpl in *.
      * destruct IH as (before & after & -> & ? & Hbefore).
        exists (p :: before), after. split_and!; [done..|].
        intros x [->|?]%elem_of_cons; auto.
      * intros x [->|?]%elem_of_cons; auto.
Qed.

Lemma find_app_no_match {A} (f : A → bool) (l1 l2 : list A) :
  (∀ x, x ∈ l1 → f x = false) → List.find f (l1 ++ l2) = List.find f l2.
Proof.
  induction l1 as [|a l1 IH]; intros Hno; [done|].
  simpl. rewrite (Hno a) by apply list_elem_of_here.
  apply IH. intros x ?. apply Hno. by apply list_elem_of_further.
Qed.

Lemma find_app_match {A} (f : A → bool) (l1 l2 : list A) (x : A) :
  x ∈ l1 → f x = true → List.find f (l1 ++ l2) = List.find f l1 ∧ is_Some (List.find f l1).
Proof.
  induction l1 as [|a l1 IH]; intros Hx Hfx; [by apply elem_of_nil in Hx|].
  simpl. destruct (f a) eqn:Hfa; [by eauto|].
  apply elem_of_cons in Hx as [->|Hx]; [congruence|]. by apply IH.
Qed.

Lemma elem_of_concat {A} (x : A) (ls : list (list A)) :
  x ∈ concat ls ↔ ∃ l, l ∈ ls ∧ x ∈ l.
Proof.
  induction ls as [|l ls IH]; simpl.
  - split; [by intros ?%elem_of_nil|]. by intros (l & ?%elem_of_nil & _).
  - rewrite elem_of_app, IH. split.
    + intros [?|(l' & ? & ?)].
      * exists l. split; [apply list_elem_of_here|done].
      * exists l'. split; [by apply list_elem_of_further|done].
    + intros (l' & [->|?]%elem_of_cons & ?); eauto.
Qed.

(** Reading a run of dates one by one. *)
Lemma mapM_Ok_app {A B} (f : A → result B) (l1 l2 : list A) (k : list B) :
  mapM f (l1 ++ l2) = Ok k
  → ∃ k1 k2, k = k1 ++ k2 ∧ mapM f l1 = Ok k1 ∧ mapM f l2 = Ok k2.
Proof.
  revert k. induction l1 as [|x l1 IH]; intros k Hk; simpl in *.
  - by exists [], k.
  - destruct (f x) as [y|e]; simpl in *; [|done].
    destruct (mapM f (l1 ++ l2)) as [k'|e] eqn:Hk'; simpl in *; [|done].
    destruct (IH k' eq_refl) as (k1 & k2 & -> & -> & ->).
    exists (y :: k1), k2. cbv [mret result_ret] in Hk. by simplify_eq.
Qed.

Lemma mapM_Ok_elem_of {A B} (f : A → result B) (l : list A) (k : list B) (y : B) :
  mapM f l = Ok k → y ∈ k → ∃ x, x ∈ l ∧ f x = Ok y.
Proof.
  revert k. induction l as [|x l IH]; intros k Hk Hy; result_simpl.
  - simplify_eq. by apply elem_of_nil in Hy.
  - destruct (f x) as [y'|e] eqn:Hfx; result_simpl; [|done].
    destruct (mapM f l) as [k'|e]; result_simpl; [|done]. simplify_eq.
    apply elem_of_cons in Hy as [->|Hy].
    + exists x. split; [apply list_elem_of_here|done].
    + destruct (IH k' eq_refl Hy) as (x' & ? & ?).
      exists x'. split; [by apply list_elem_of_further|done].
Qed.

Section Lookup.
Context `{Platform}.

Lemma eval_getPaperById (id : string) (d : FS) :
  eval (getPaperById id) d
  = (all ← eval getAllPapers d;
     mret (List.find (λ p, String.eqb (Paper.id p) id) all)).
Proof.
  unfold eval, getPaperById, mbind at 1, M_bind.
  by destruct (getAllPapers d) as [[all|e] d'].
Qed.

(** C4. Where [getAllPapers] returns [all], [getPaperById id] returns the
    first paper of [all] whose identifier is [id], and null when [all] has
    none. When the identifier occurs under several dates, the paper comes
    from the first date of the listing whose document has it, a date that
    none before it in the listing exceeds: the most recent one. *)
Theorem getPaperById_first (d : FS) (id : string) (all : list Paper)
    (Hall : eval getAllPapers d = Ok all) :
  ∃ r, eval (getPaperById id) d = Ok r
    ∧ first_match id all r
    ∧ ∀ dates newer date older daily,
        eval getAllDates d = Ok dates
        → dates = newer ++ date :: older
        → eval (getPapersForDate date) d = Ok (Some daily)
        → (∃ x, x ∈ DailyPapers.papers daily ∧ Paper.id x = id)
        → (∀ date' daily' x,
             date' ∈ newer
             → eval (getPapersForDate date') d = Ok (Some daily')
             → x ∈ DailyPapers.papers daily'
             → Paper.id x ≠ id)
        → Forall (String.le date) newer
          ∧ ∃ p, r = Some p ∧ first_match id (DailyPapers.papers daily) (Some p).
Proof.
  exists (List.find (λ p, String.eqb (Paper.id p) id) all).
  split; [by rewrite eval_getPaperById, Hall|].
  split; [apply find_first_match|].
  intros dates newer date older daily Hdates -> Hdaily (x & Hx & Hid) Hnewer.
  split.
  { rewrite eval_getAllDates in Hdates. simplify_eq.
    pose proof (dates_of_descending (elements (dom (files d)))) as Hsorted.
    rewrite Hdates in Hsorted. apply Sorted_StronglySorted in Hsorted; [|apply _].
    apply Forall_forall. intros date' Hdate'.
    apply (StronglySorted_app_1_elem_of _ _ _ date' date Hsorted Hdate').
    apply list_elem_of_here. }
  rewrite eval_getAllPapers, Hdates in Hall. simpl in Hall.
  destruct (mapM _ (newer ++ date :: older)) as [docs|e] eqn:Hdocs; [|done].
  apply mapM_Ok_app in Hdocs as (docs1 & docs2 & -> & Hdocs1 & Hdocs2).
  simpl in Hdocs2. rewrite Hdaily in Hdocs2. simpl in Hdocs2.
  destruct (mapM _ older) as [docs3|e]; [|done]. result_simpl. simplify_eq.
  rewrite fmap_app, concat_app, fmap_cons. cbn [concat papers_of].
  rewrite find_app_no_match.
  - destruct (find_app_match (λ p, String.eqb (Paper.id p) (Paper.id x))
                (DailyPapers.papers daily) (concat (papers_of <$> docs3)) x Hx)
      as [-> [p Hp]]; [by apply String.eqb_eq|].
    exists p. split; [done|].
    pose proof (find_first_match (Paper.id x) (DailyPapers.papers daily)) as Hfirst.
    by rewrite Hp in Hfirst.
  - intros y (l & (doc & -> & Hdoc)%list_elem_of_fmap & Hy)%elem_of_concat.
    apply String.eqb_neq.
    destruct (mapM_Ok_elem_of _ _ _ _ Hdocs1 Hdoc) as (date' & Hdate' & Hread).
    destruct doc as [daily'|]; [|by apply elem_of_nil in Hy].
    by apply (Hnewer date' daily' y).
Qed.

End Lookup.

(** ** Search *)

Lemma includes_substring_of (s q : string) : JS.includes s q = true ↔ substring_of q s.
Proof. apply includes_spec. Qed.

Lemma existsb_substring_of (q : string) (l : list string) :
  existsb (λ a, JS.includes (JS.toLowerCase a) q) l = true
  ↔ ∃ a, a ∈ l ∧ substring_of q (JS.toLowerCase a).
Proof.
  rewrite existsb_exists. split; intros (a & Ha & Hq); exists a.
  - by rewrite list_elem_of_In, <-includes_substring_of.
  - by rewrite <-list_elem_of_In, includes_substring_of.
Qed.

(** The test that [searchPapers] applies to a paper is the matching of the
    specification. *)
Lemma search_test_Matches (query : string) (p : Paper) :
  let q := JS.toLowerCase query in
  JS.includes (JS.toLowerCase (Paper.title p)) q
  || JS.includes (JS.toLowerCase (Paper.abstract p)) q
  || JS.includes (JS.toLowerCase (Paper.summary p)) q
  || existsb (λ a, JS.includes (JS.toLowerCase a) q) (Paper.authors p)
  || existsb (λ t, JS.includes (JS.toLowerCase t) q) (Paper.tags p)
  ↔ Matches query p.
Proof.
  unfold Matches. cbv zeta.
  rewrite Is_true_true, !orb_true_iff, !includes_substring_of, !existsb_substring_of.
  tauto.
Qed.

Global Instance Matches_dec (query : string) (p : Paper) : Decision (Matches query p).
Proof.
  refine (cast_if (decide (Is_true
    (let q := JS.toLowerCase query in
     JS.includes (JS.toLowerCase (Paper.title p)) q
     || JS.includes (JS.toLowerCase (Paper.abstract p)) q
     || JS.includes (JS.toLowerCase (Paper.summary p)) q
     || existsb (λ a, JS.includes (JS.toLowerCase a) q) (Paper.authors p)
     || existsb (λ t, JS.includes (JS.toLowerCase t) q) (Paper.tags p)))));
    by rewrite <-search_test_Matches.
Defined.

Lemma Matches_empty (p : Paper) : Matches "" p.
Proof. left. exists "", (JS.toLowerCase (Paper.title p)). reflexivity. Qed.

Lemma filter_Matches_empty (all : list Paper) : filter (Matches "") all = all.
Proof.
  induction all as [|p all IH]; [done|].
  rewrite filter_cons_True by apply Matches_empty. by rewrite IH.
Qed.

Section Search.
Context `{Platform}.

Lemma eval_searchPapers (query : string) (d : FS) :
  eval (searchPapers query) d
  = (all ← eval getAllPapers d; mret (filter (Matches query) all)).
Proof.
  unfold eval, searchPapers, mbind at 1, M_bind.
  destruct (getAllPapers d) as [[all|e] d']; [|done]. simpl.
  unfold mret, result_ret. f_equal.
  apply list_filter_iff. intros p. apply search_test_Matches.
Qed.

(** C1. Where [getAllPapers] returns [all], [searchPapers query] returns
    the papers of [all] that match the query, lowercased, in the title, the
    abstract, the summary, an author or a tag, also lowercased: each of them
    and no other, in the order they have in [all]; the empty query returns
    [all]. *)
Theorem searchPapers_matches (d : FS) (query : string) (all : list Paper)
    (Hall : eval getAllPapers d = Ok all) :
  eval (searchPapers query) d = Ok (filter (Matches query) all)
  ∧ (∀ p, p ∈ filter (Matches query) all ↔ p ∈ all ∧ Matches query p)
  ∧ filter (Matches query) all `sublist_of` all
  ∧ eval (searchPapers "") d = Ok all.
Proof.
  split_and!.
  - by rewrite eval_searchPapers, Hall.
  - intros p. rewrite list_elem_of_filter. tauto.
  - apply sublist_filter.
  - rewrite eval_searchPapers, Hall. simpl. unfold mret, result_ret. f_equal.
    apply filter_Matches_empty.
Qed.

End Search.

(** ** Reading and writing one document *)

Section Documents.
Context `{Platform}.

Lemma saveDailyPapers_run (daily : DailyPapers) (d : FS) :
  saveDailyPapers daily d
  = (Ok tt,
     Some (<[DailyPapers.date daily +:+ ".json" := JSON_stringify (daily_toJSON daily)]>
             (files d))).
Proof.
  unfold saveDailyPapers, mbind, M_bind. by rewrite ensureContentDir_run.
Qed.

(** C7, amended. For a date that is a plain name, as a date YYYY-MM-DD
    is ([is_date_plain]), [getPapersForDate date] returns null, without an
    error, when the directory has no entry for the date's file. When it has
    one, the outcome is that of parsing its text, which the cast does not
    check: the parsed document; null, for the text of null; or the error that
    the parser throws on a malformed text, which is not the null of an absent
    document. So null is returned exactly when the entry is absent or holds
    the text of null. *)
Theorem getPapersForDate_absent_or_parsed (d : FS) (date : string)
    (Hplain : plain_name date = true) :
  (files d !! (date +:+ ".json") = None → eval (getPapersForDate date) d = Ok None)
  ∧ (∀ raw,
       files d !! (date +:+ ".json") = Some raw
       → eval (getPapersForDate date) d = JSON_parse raw)
  ∧ (∀ raw e,
       files d !! (date +:+ ".json") = Some raw
       → JSON_parse raw = Throw e
       → eval (getPapersForDate date) d = Throw e
         ∧ eval (getPapersForDate date) d ≠ Ok None)
  ∧ (eval (getPapersForDate date) d = Ok None
     ↔ files d !! (date +:+ ".json") = None
       ∨ ∃ raw, files d !! (date +:+ ".json") = Some raw ∧ JSON_parse raw = Ok None).
Proof.
  rewrite eval_getPapersForDate. unfold read_document. split_and!.
  - by intros ->.
  - by intros raw ->.
  - by intros raw e -> ->.
  - destruct (files d !! (date +:+ ".json")) as [raw|]; [|by split; auto]. split.
    + intros Hnull. right. by exists raw.
    + intros [?|(raw' & ? & ?)]; by simplify_eq.
Qed.

(** C2. After [saveDailyPapers daily], [getPapersForDate] at the date of
    [daily] returns [daily], for a [daily] whose date is a plain name, as
    the date YYYY-MM-DD of a batch is ([is_date_plain]), and that the JSON
    codec takes to text and back. The entry of the date holds the text of
    [daily] and nothing of what it held before; every other entry is as it
    was. *)
Theorem save_then_get (d : FS) (daily : DailyPapers)
    (Hdate : plain_name (DailyPapers.date daily) = true)
    (Hjson : JSON_parse (JSON_stringify (daily_toJSON daily)) = Ok (Some daily)) :
  eval (saveDailyPapers daily) d = Ok tt
  ∧ eval (getPapersForDate (DailyPapers.date daily)) (exec (saveDailyPapers daily) d)
    = Ok (Some daily)
  ∧ files (exec (saveDailyPapers daily) d)
    = <[DailyPapers.date daily +:+ ".json" := JSON_stringify (daily_toJSON daily)]>
        (files d).
Proof.
  unfold eval at 1, exec. rewrite saveDailyPapers_run. simpl.
  split_and!; [done| |done].
  rewrite eval_getPapersForDate. unfold read_document. simpl.
  by rewrite lookup_insert_eq, Hjson.
Qed.

End Documents.

(** ** Limits *)

Lemma slice0_prefix {A} (arr : list A) (n : JS.number) : JS.slice0 arr n `prefix_of` arr.
Proof. apply prefix_take. Qed.

(** From a limit of 1 on, [slice(0, limit)] keeps the first [limit]
    elements. *)
Lemma slice0_take {A} (arr : list A) (n : Z) :
  1 ≤ n → JS.slice0 arr (JS.Num n) = take (Z.to_nat n) arr.
Proof.
  intros Hn. unfold JS.slice0. simpl.
  destruct (Z.ltb_spec n 0) as [|_]; [lia|].
  destruct (Z.le_ge_cases n (Z.of_nat (length arr))).
  - by rewrite Z.min_l.
  - rewrite Z.min_r, Nat2Z.id by done. rewrite !take_ge; [done|lia..].
Qed.

Lemma slice0_zero {A} (arr : list A) : JS.slice0 arr (JS.Num 0) = [].
Proof. unfold JS.slice0. simpl. by rewrite Z.min_l by lia. Qed.

Lemma if_truthy_nonempty (s : string) : s ≠ "" → if_truthy (Some s) = Some s.
Proof. intros Hs. unfold if_truthy, JS.truthy_string. by apply String.eqb_neq in Hs as ->. Qed.

(** ** The REST adapter *)

Section Rest.
Context `{Platform}.

Lemma GET_search (d : FS) (date : option string) (query : string)
    (limitParam : option string) (results : list Paper) :
  query ≠ ""
  → eval (searchPapers query) d = Ok results
  → eval (PapersRoute.GET (PapersRoute.mkParams date (Some query) limitParam)) d
    = Ok (mkResponse 200 (search_body (limited limitParam results))).
Proof.
  intros Hq Hres. unfold eval, PapersRoute.GET, try_catch in *. cbn [PapersRoute.q].
  rewrite if_truthy_nonempty by done. unfold mbind, M_bind.
  destruct (searchPapers query d) as [r d']. simpl in Hres. subst r. done.
Qed.

(** C8, amended. A search request (a query that is not empty) is answered
    with status 200 and a body whose [papers] is a prefix of the search
    result and whose [total] is the length of that prefix, not of the search
    result. When the limit parameter reads as a number N from 1 on, the
    prefix is the first N results, N elements at most. *)
Theorem GET_search_limit (d : FS) (date : option string) (query : string)
    (limitParam : option string) (results : list Paper)
    (Hquery : query ≠ "")
    (Hresults : eval (searchPapers query) d = Ok results) :
  ∃ papers,
    eval (PapersRoute.GET (PapersRoute.mkParams date (Some query) limitParam)) d
    = Ok (mkResponse 200
            (JS.JObj [("papers", papers_toJSON papers);
                      ("total", JS.JNum (Z.of_nat (length papers)))]))
    ∧ papers `prefix_of` results
    ∧ (length papers ≤ length results)%nat
    ∧ ∀ s N,
        limitParam = Some s
        → JS.parseInt s = JS.Num N
        → 1 ≤ N
        → papers = take (Z.to_nat N) results ∧ Z.of_nat (length papers) ≤ N.
Proof.
  exists (limited limitParam results).
  split; [by apply GET_search|].
  assert (limited limitParam results `prefix_of` results) as Hprefix.
  { unfold limited. destruct (JS.parseInt <$> if_truthy limitParam) as [n|]; [|done].
    destruct (JS.truthy n); [apply slice0_prefix|done]. }
  split_and!; [done|by apply prefix_length|].
  intros s N -> HN Hpos. unfold limited, if_truthy.
  destruct (JS.truthy_string s) eqn:Hs.
  - simpl. rewrite HN. simpl. destruct (Z.eqb_spec N 0) as [|_]; [lia|]. simpl.
    rewrite slice0_take by done. split; [done|]. rewrite length_take. lia.
  - unfold JS.truthy_string in Hs. apply negb_false_iff, String.eqb_eq in Hs as ->.
    discriminate HN.
Qed.

(** A limit of 0, or one that is no number, leaves the search result
    whole. *)
Lemma GET_search_no_limit (d : FS) (date : option string) (query s : string)
    (results : list Paper) :
  query ≠ ""
  → JS.parseInt s = JS.Num 0 ∨ JS.parseInt s = JS.NaN
  → eval (searchPapers query) d = Ok results
  → eval (PapersRoute.GET (PapersRoute.mkParams date (Some query) (Some s))) d
    = Ok (mkResponse 200 (search_body results)).
Proof.
  intros Hq Hs Hres. rewrite (GET_search d date query (Some s) results) by done.
  do 3 f_equal. unfold limited, if_truthy.
  destruct (JS.truthy_string s); [|done]. simpl. by destruct Hs as [-> | ->].
Qed.

End Rest.

(** ** The tool-call adapter *)

Section Mcp.
Context `{Platform}.
Import McpRoute.

(** [executeTool] returns a result whatever its [switch] does. *)
Lemma eval_executeTool (name : string) (args : Args) (d : FS) :
  eval (executeTool name args) d
  = Ok match eval (dispatch name args) d with
       | Ok r => r
       | Throw e => error_result name e
       end.
Proof.
  unfold eval, executeTool, try_catch.
  by destruct (dispatch name args d) as [[r|e] d'].
Qed.

Lemma eval_POST (name : string) (arguments : option Args) (d : FS) :
  name ≠ ""
  → eval (POST (Ok (Some (mkBody (Some name) arguments)))) d
    = Ok (mkResponse 200
            (result_toJSON
               match eval (dispatch name (default no_args arguments)) d with
               | Ok r => r
               | Throw e => error_result name e
               end)).
Proof.
  intros Hname. unfold eval, POST, try_catch, mbind at 1, M_bind, lift.
  cbn [McpRoute.name McpRoute.arguments]. rewrite if_truthy_nonempty by done.
  unfold mbind at 1, M_bind, executeTool, try_catch.
  by destruct (dispatch name (default no_args arguments) d) as [[r|e] d'].
Qed.

Lemma dispatch_unknown (name : string) (args : Args) (d : FS) :
  name ∉ TOOLS → eval (dispatch name args) d = Ok (mkResult ["Unknown tool: " +:+ name] (Some true)).
Proof.
  unfold TOOLS. rewrite !not_elem_of_cons. intros (? & ? & ? & ? & ? & _).
  unfold dispatch.
  repeat match goal with
         | |- context [String.eqb name ?tool] =>
             destruct (String.eqb_spec name tool) as [?|_]; [done|]
         end.
  done.
Qed.

(** C9, amended. A body without a name, or with the empty string for a
    name, is answered 400 with an error message that mentions the field. A
    name that is not empty is answered 200 with the result of the tool: for a
    name outside the catalog the error result "Unknown tool: name", and for
    an error thrown while the tool runs the error result that carries the
    error as a string. The handler itself does not fail, whatever the
    request. *)
Theorem POST_dispatch (d : FS) (name : option string) (arguments : option Args) :
  (if_truthy name = None
   → eval (POST (Ok (Some (mkBody name arguments)))) d
     = Ok (mkResponse 400 (error_body "Missing required field: name"))
     ∧ JS.includes "Missing required field: name" "name" = true)
  ∧ (∀ n,
       name = Some n → n ≠ "" → n ∉ TOOLS
       → eval (POST (Ok (Some (mkBody name arguments)))) d
         = Ok (mkResponse 200
                 (result_toJSON (mkResult ["Unknown tool: " +:+ n] (Some true)))))
  ∧ (∀ n e,
       name = Some n → n ≠ ""
       → eval (dispatch n (default no_args arguments)) d = Throw e
       → eval (executeTool n (default no_args arguments)) d = Ok (error_result n e)
         ∧ eval (POST (Ok (Some (mkBody name arguments)))) d
           = Ok (mkResponse 200 (result_toJSON (error_result n e))))
  ∧ (∀ n,
       name = Some n → n ≠ ""
       → ∃ r, eval (POST (Ok (Some (mkBody name arguments)))) d
              = Ok (mkResponse 200 (result_toJSON r)))
  ∧ (∀ request_json, ∃ response, eval (POST request_json) d = Ok response).
Proof.
  split_and!.
  - intros Hname. split; [|reflexivity].
    unfold eval, POST, try_catch, mbind, M_bind, lift. cbn [McpRoute.name].
    by rewrite Hname.
  - intros n -> Hn Hunknown. rewrite eval_POST by done.
    by rewrite dispatch_unknown.
  - intros n e -> Hn He. by rewrite eval_POST, eval_executeTool, He by done.
  - intros n -> Hn. rewrite eval_POST by done. eauto.
  - intros request_json. unfold eval, POST, try_catch, mbind at 1, M_bind, lift.
    destruct request_json as [[body|]|e]; [|by eauto..].
    destruct (if_truthy (McpRoute.name body)) as [n|]; [|by eauto].
    unfold mbind, M_bind.
    destruct (executeTool n _ d) as [[r|e] d']; by eauto.
Qed.

(** The limit 0 of [get_papers_by_date] returns the whole list of the
    date. *)
Lemma get_papers_by_date_limit_zero (d : FS) (date : string) (id query : option string)
    (daily : DailyPapers) :
  eval (getPapersForDate date) d = Ok (Some daily)
  → eval (executeTool "get_papers_by_date" (mkArgs (Some date) id query (Some 0))) d
    = Ok (mkResult
            [JSON_stringify
               (JS.JObj [("date", JS.JStr date);
                         ("papers", papers_toJSON (DailyPapers.papers daily))])]
            None).
Proof.
  intros Hdaily. rewrite eval_executeTool. f_equal.
  unfold eval, dispatch in *. simpl. unfold mbind, M_bind.
  destruct (getPapersForDate date d) as [r d']. simpl in Hdaily. by subst r.
Qed.

(** C10. A limit that JavaScript takes for false is no limit. The search
    request with [limit=0], or with a limit that is no number, returns all
    matched papers; [get_papers_by_date] with the limit 0 returns all papers
    of the date; whereas [slice(0, 0)], the limit read literally, is
    empty. *)
Theorem limit_zero_is_no_limit (d : FS) :
  (∀ date query s results,
     query ≠ ""
     → JS.parseInt s = JS.Num 0 ∨ JS.parseInt s = JS.NaN
     → eval (searchPapers query) d = Ok results
     → eval (PapersRoute.GET (PapersRoute.mkParams date (Some query) (Some s))) d
       = Ok (mkResponse 200
               (JS.JObj [("papers", papers_toJSON results);
                         ("total", JS.JNum (Z.of_nat (length results)))])))
  ∧ (∀ date id query daily,
       eval (getPapersForDate date) d = Ok (Some daily)
       → eval (executeTool "get_papers_by_date" (mkArgs (Some date) id query (Some 0))) d
         = Ok (mkResult
                 [JSON_stringify
                    (JS.JObj [("date", JS.JStr date);
                              ("papers", papers_toJSON (DailyPapers.papers daily))])]
                 None))
  ∧ JS.parseInt "0" = JS.Num 0
  ∧ JS.parseInt "abc" = JS.NaN
  ∧ (∀ results : list Paper, JS.slice0 results (JS.Num 0) = []).
Proof.
  split_and!.
  - intros date query s results. apply GET_search_no_limit.
  - intros date id query daily. apply get_papers_by_date_limit_zero.
  - reflexivity.
  - reflexivity.
  - intros results. apply slice0_zero.
Qed.

End Mcp.

(** ** The theorems of the repository at the store of the tests *)

Lemma getAllPapers_store : eval (getAllPapers (H:=codec)) Fixtures.store = Ok Fixtures.all_papers.
Proof. vm_compute. reflexivity. Qed.

Lemma searchPapers_matches_witness :
  eval (searchPapers (H:=codec) "nlp") Fixtures.store = Ok (filter (Matches "nlp") Fixtures.all_papers)
  ∧ (∀ p, p ∈ filter (Matches "nlp") Fixtures.all_papers ↔ p ∈ Fixtures.all_papers ∧ Matches "nlp" p)
  ∧ filter (Matches "nlp") Fixtures.all_papers `sublist_of` Fixtures.all_papers
  ∧ eval (searchPapers (H:=codec) "") Fixtures.store = Ok Fixtures.all_papers.
Proof.
  apply (searchPapers_matches (H:=codec) Fixtures.store "nlp" Fixtures.all_papers).
  vm_compute. reflexivity.
Defined.

Lemma getPaperById_first_witness :
  ∃ r, eval (getPaperById (H:=codec) "2502.00002") Fixtures.store = Ok r
    ∧ first_match "2502.00002" Fixtures.all_papers r
    ∧ ∀ dates newer date older daily,
        eval getAllDates Fixtures.store = Ok dates
        → dates = newer ++ date :: older
        → eval (getPapersForDate (H:=codec) date) Fixtures.store = Ok (Some daily)
        → (∃ x, x ∈ DailyPapers.papers daily ∧ Paper.id x = "2502.00002")
        → (∀ date' daily' x,
             date' ∈ newer
             → eval (getPapersForDate (H:=codec) date') Fixtures.store = Ok (Some daily')
             → x ∈ DailyPapers.papers daily'
             → Paper.id x ≠ "2502.00002")
        → Forall (String.le date) newer
          ∧ ∃ p, r = Some p ∧ first_match "2502.00002" (DailyPapers.papers daily) (Some p).
Proof.
  apply (getPaperById_first (H:=codec) Fixtures.store "2502.00002" Fixtures.all_papers).
  vm_compute. reflexivity.
Defined.

Lemma save_then_get_witness :
  eval (saveDailyPapers (H:=codec) Fixtures.daily1_again) Fixtures.store = Ok tt
  ∧ eval (getPapersForDate (H:=codec) "2025-02-01")
      (exec (saveDailyPapers (H:=codec) Fixtures.daily1_again) Fixtures.store)
    = Ok (Some Fixtures.daily1_again)
  ∧ files (exec (saveDailyPapers (H:=codec) Fixtures.daily1_again) Fixtures.store)
    = <["2025-02-01.json" := Codec.stringify (daily_toJSON Fixtures.daily1_again)]>
        (files Fixtures.store).
Proof.
  apply (save_then_get (H:=codec) Fixtures.store Fixtures.daily1_again).
  - reflexivity.
  - vm_compute. reflexivity.
Defined.

(** C7 fails as stated: the directory has a document for the date, which
    holds the text of null, and [getPapersForDate] returns null for it. *)
Lemma getPapersForDate_null_though_present :
  ¬ (eval (getPapersForDate (H:=codec) "2025-01-01") Fixtures.null_store = Ok None
     → files Fixtures.null_store !! "2025-01-01.json" = None).
Proof.
  intros Habsent.
  assert (eval (getPapersForDate (H:=codec) "2025-01-01") Fixtures.null_store = Ok None)
    as Hrun by (vm_compute; reflexivity).
  specialize (Habsent Hrun). vm_compute in Habsent. discriminate Habsent.
Qed.

(** A date without a document, a document, a document that is not JSON,
    and a document that holds null. *)
Lemma getPapersForDate_absent_or_parsed_witness :
  eval (getPapersForDate (H:=codec) "1999-01-01") Fixtures.broken_store = Ok None
  ∧ eval (getPapersForDate (H:=codec) "2025-03-01") Fixtures.broken_store
    = Ok (Some Fixtures.daily2)
  ∧ eval (getPapersForDate (H:=codec) "2025-04-01") Fixtures.broken_store
    = Throw Codec.SyntaxError
  ∧ eval (getPapersForDate (H:=codec) "2025-01-01") Fixtures.null_store = Ok None.
Proof.
  split_and!.
  - apply (proj1 (getPapersForDate_absent_or_parsed (H:=codec) Fixtures.broken_store
                    "1999-01-01" eq_refl)).
    vm_compute. reflexivity.
  - rewrite (proj1 (proj2 (getPapersForDate_absent_or_parsed (H:=codec) Fixtures.broken_store
                             "2025-03-01" eq_refl))
               (Codec.stringify (daily_toJSON Fixtures.daily2)));
      vm_compute; reflexivity.
  - apply (proj1 (proj2 (proj2 (getPapersForDate_absent_or_parsed (H:=codec)
                                  Fixtures.broken_store "2025-04-01" eq_refl)))
             "{ not json"); vm_compute; reflexivity.
  - apply (proj2 (proj2 (proj2 (getPapersForDate_absent_or_parsed (H:=codec)
                                  Fixtures.null_store "2025-01-01" eq_refl)))).
    right. exists "null". split; vm_compute; reflexivity.
Defined.

(** ** The theorems of the adapters at the store of the tests *)

(** C8 fails as stated: with the limit 0 the one matched paper is
    returned, more than 0 elements. *)
Lemma GET_limit_zero_not_truncated :
  ¬ (∀ papers,
       eval (PapersRoute.GET (H:=codec) (PapersRoute.mkParams None (Some "gpt") (Some "0")))
         Fixtures.store
       = Ok (mkResponse 200
               (JS.JObj [("papers", papers_toJSON papers);
                         ("total", JS.JNum (Z.of_nat (length papers)))]))
       → Z.of_nat (length papers) ≤ 0).
Proof.
  intros Hlimit.
  assert (eval (PapersRoute.GET (H:=codec) (PapersRoute.mkParams None (Some "gpt") (Some "0")))
            Fixtures.store
          = Ok (mkResponse 200
                  (JS.JObj [("papers", papers_toJSON [Fixtures.mockPaper3]);
                            ("total", JS.JNum (Z.of_nat (length [Fixtures.mockPaper3])))])))
    as Hrun by (vm_compute; reflexivity).
  specialize (Hlimit [Fixtures.mockPaper3] Hrun). simpl in Hlimit. lia.
Qed.

Lemma GET_search_limit_witness :
  ∃ papers,
    eval (PapersRoute.GET (H:=codec) (PapersRoute.mkParams None (Some "nlp") (Some "1")))
      Fixtures.store
    = Ok (mkResponse 200
            (JS.JObj [("papers", papers_toJSON papers);
                      ("total", JS.JNum (Z.of_nat (length papers)))]))
    ∧ papers `prefix_of` [Fixtures.mockPaper1; Fixtures.mockPaper2]
    ∧ (length papers ≤ length [Fixtures.mockPaper1; Fixtures.mockPaper2])%nat
    ∧ ∀ s N,
        Some "1" = Some s
        → JS.parseInt s = JS.Num N
        → 1 ≤ N
        → papers = take (Z.to_nat N) [Fixtures.mockPaper1; Fixtures.mockPaper2]
          ∧ Z.of_nat (length papers) ≤ N.
Proof.
  apply (GET_search_limit (H:=codec) Fixtures.store None "nlp" (Some "1")
           [Fixtures.mockPaper1; Fixtures.mockPaper2]).
  - discriminate.
  - vm_compute. reflexivity.
Defined.

(** C9 fails as stated: the empty name matches no tool of the catalog, and
    is answered 400, not 200 with "Unknown tool: ". *)
Lemma POST_empty_name_not_unknown_tool :
  ¬ ("" ∉ McpRoute.TOOLS
     → eval (McpRoute.POST (H:=codec) (Ok (Some (McpRoute.mkBody (Some "") None))))
         Fixtures.store
       = Ok (mkResponse 200
               (McpRoute.result_toJSON
                  (McpRoute.mkResult ["Unknown tool: " +:+ ""] (Some true))))).
Proof.
  intros Hunknown.
  assert ("" ∉ McpRoute.TOOLS) as Hname.
  { unfold McpRoute.TOOLS. rewrite !not_elem_of_cons. split_and!; try discriminate.
    apply not_elem_of_nil. }
  specialize (Hunknown Hname). vm_compute in Hunknown. discriminate Hunknown.
Qed.

(** A call of [search_papers] without its query: the error thrown inside
    the tool comes back as the tool's result. *)
Lemma POST_dispatch_witness :
  eval (McpRoute.POST (H:=codec) (Ok (Some (McpRoute.mkBody None None)))) Fixtures.store
  = Ok (mkResponse 400 (error_body "Missing required field: name"))
  ∧ eval (McpRoute.POST (H:=codec) (Ok (Some (McpRoute.mkBody (Some "no_such_tool") None))))
      Fixtures.store
    = Ok (mkResponse 200
            (McpRoute.result_toJSON
               (McpRoute.mkResult ["Unknown tool: " +:+ "no_such_tool"] (Some true))))
  ∧ eval (McpRoute.POST (H:=codec) (Ok (Some (McpRoute.mkBody (Some "search_papers") None))))
      Fixtures.store
    = Ok (mkResponse 200
            (McpRoute.result_toJSON
               (error_result "search_papers" McpRoute.TypeError_toLowerCase))).
Proof.
  split_and!.
  - apply (POST_dispatch (H:=codec) Fixtures.store None None). reflexivity.
  - apply (proj1 (proj2 (POST_dispatch (H:=codec) Fixtures.store (Some "no_such_tool") None))
             "no_such_tool"); [reflexivity|discriminate|].
    unfold McpRoute.TOOLS. rewrite !not_elem_of_cons. split_and!; try discriminate.
    apply not_elem_of_nil.
  - apply (proj1 (proj2 (proj2
             (POST_dispatch (H:=codec) Fixtures.store (Some "search_papers") None)))
             "search_papers" McpRoute.TypeError_toLowerCase);
      [reflexivity|discriminate|vm_compute; reflexivity].
Defined.

Lemma limit_zero_is_no_limit_witness :
  eval (PapersRoute.GET (H:=codec) (PapersRoute.mkParams None (Some "nlp") (Some "0")))
    Fixtures.store
  = Ok (mkResponse 200
          (JS.JObj [("papers", papers_toJSON [Fixtures.mockPaper1; Fixtures.mockPaper2]);
                    ("total", JS.JNum 2)]))
  ∧ eval (McpRoute.executeTool (H:=codec) "get_papers_by_date"
            (McpRoute.mkArgs (Some "2025-02-01") None None (Some 0)))
      Fixtures.store
    = Ok (McpRoute.mkResult
            [Codec.stringify
               (JS.JObj [("date", JS.JStr "2025-02-01");
                         ("papers", papers_toJSON (DailyPapers.papers Fixtures.daily1))])]
            None).
Proof.
  split.
  - apply (proj1 (limit_zero_is_no_limit (H:=codec) Fixtures.store)
             None "nlp" "0" [Fixtures.mockPaper1; Fixtures.mockPaper2]).
    + discriminate.
    + left. reflexivity.
    + vm_compute. reflexivity.
  - apply (proj1 (proj2 (limit_zero_is_no_limit (H:=codec) Fixtures.store))
             "2025-02-01" None None Fixtures.daily1).
    vm_compute. reflexivity.
Defined.

(** * Further properties of the code *)

(** ** More on strings *)

Lemma lower_unit_idem (c : ascii) : JS.lower_unit (JS.lower_unit c) = JS.lower_unit c.
Proof. by destruct c as [[] [] [] [] [] [] [] []]. Qed.

Lemma toLowerCase_idem (s : string) : JS.toLowerCase (JS.toLowerCase s) = JS.toLowerCase s.
Proof. induction s as [|c s IH]; [done|]. simpl. by rewrite lower_unit_idem, IH. Qed.

Lemma toLowerCase_app (s t : string) :
  JS.toLowerCase (s +:+ t) = JS.toLowerCase s +:+ JS.toLowerCase t.
Proof.
  induction s as [|c s IH]; [done|].
  rewrite app_String. simpl. by rewrite IH, app_String.
Qed.

Lemma substring_of_lower (q s : string) :
  substring_of q s → substring_of (JS.toLowerCase q) (JS.toLowerCase s).
Proof.
  intros (pre & post & ->). exists (JS.toLowerCase pre), (JS.toLowerCase post).
  by rewrite !toLowerCase_app.
Qed.

Lemma substring_of_trans (q1 q2 s : string) :
  substring_of q1 q2 → substring_of q2 s → substring_of q1 s.
Proof.
  intros (pre1 & post1 & ->) (pre2 & post2 & ->).
  exists (pre2 +:+ pre1), (post1 +:+ post2). by rewrite !app_assoc_string.
Qed.

Lemma app_inv_tail_string (s1 s2 t : string) : s1 +:+ t = s2 +:+ t → s1 = s2.
Proof.
  revert s2. induction s1 as [|a s1 IH]; intros [|b s2] Heq; [done|..].
  - apply (f_equal String.length) in Heq.
    rewrite app_empty_l, app_String in Heq. simpl in Heq.
    rewrite length_app_string in Heq. lia.
  - apply (f_equal String.length) in Heq.
    rewrite app_empty_l, app_String in Heq. simpl in Heq.
    rewrite length_app_string in Heq. lia.
  - rewrite !app_String in Heq. simplify_eq. f_equal. by apply IH.
Qed.

(** ** Reading leaves the directory as it is *)

Section ReadsOnly.
Context `{Platform}.

Lemma getLatestPapers_run (d : FS) :
  getLatestPapers d = (eval getLatestPapers d, Some (files d)).
Proof.
  unfold eval, getLatestPapers, mbind, M_bind. rewrite getAllDates_run.
  destruct (dates_of _) as [|date0 dates]; [done|].
  by rewrite getPapersForDate_run.
Qed.

Lemma getPaperById_run (id : string) (d : FS) :
  getPaperById id d = (eval (getPaperById id) d, Some (files d)).
Proof.
  unfold eval, getPaperById, mbind, M_bind. rewrite getAllPapers_run.
  by destruct (mapM _ _ ≫= _).
Qed.

Lemma searchPapers_run (query : string) (d : FS) :
  searchPapers query d = (eval (searchPapers query) d, Some (files d)).
Proof.
  unfold eval, searchPapers, mbind, M_bind. rewrite getAllPapers_run.
  by destruct (mapM _ _ ≫= _).
Qed.

(** X1. No read of the repository writes: after [getAllDates],
    [getPapersForDate], [getLatestPapers], [getAllPapers], [getPaperById] or
    [searchPapers], whether it returned or threw, the content directory
    exists and holds the entries it held before (none, when it did not
    exist). *)
Theorem reads_leave_entries (d : FS) (date id query : string) :
  exec getAllDates d = Some (files d)
  ∧ exec (getPapersForDate date) d = Some (files d)
  ∧ exec getLatestPapers d = Some (files d)
  ∧ exec getAllPapers d = Some (files d)
  ∧ exec (getPaperById id) d = Some (files d)
  ∧ exec (searchPapers query) d = Some (files d).
Proof.
  unfold exec. split_and!.
  - by rewrite getAllDates_run.
  - by rewrite getPapersForDate_run.
  - by rewrite getLatestPapers_run.
  - by rewrite getAllPapers_run.
  - by rewrite getPaperById_run.
  - by rewrite searchPapers_run.
Qed.

(** X2. On a content directory without entries, or one that does not exist
    yet, nothing fails: the listing of dates and the papers are empty, there
    is no latest batch, no paper has the identifier, and a search finds
    nothing. *)
Theorem empty_store_reads (d : FS) (id query : string) (Hempty : files d = ∅) :
  eval getAllDates d = Ok []
  ∧ eval getLatestPapers d = Ok None
  ∧ eval getAllPapers d = Ok []
  ∧ eval (getPaperById id) d = Ok None
  ∧ eval (searchPapers query) d = Ok [].
Proof.
  assert (eval getAllDates d = Ok []) as Hdates.
  { rewrite eval_getAllDates, Hempty, dom_empty_L, elements_empty. reflexivity. }
  assert (eval getAllPapers d = Ok []) as Hall.
  { by rewrite eval_getAllPapers, Hdates. }
  split_and!; [done| |done| |].
  - by rewrite eval_getLatestPapers, Hdates.
  - by rewrite eval_getPaperById, Hall.
  - by rewrite eval_searchPapers, Hall.
Qed.

End ReadsOnly.

Lemma empty_store_reads_witness :
  eval getAllDates None = Ok []
  ∧ eval (getLatestPapers (H:=codec)) None = Ok None
  ∧ eval (getAllPapers (H:=codec)) None = Ok []
  ∧ eval (getPaperById (H:=codec) "2502.00001") None = Ok None
  ∧ eval (searchPapers (H:=codec) "nlp") None = Ok [].
Proof. apply (empty_store_reads (H:=codec) None "2502.00001" "nlp"). reflexivity. Defined.

(** ** The listing and the latest batch *)

(** X3. For every content directory the listing of dates is returned, in
    descending order of its names, with one name at most for each entry of
    the directory. *)
Theorem getAllDates_descending (d : FS) :
  ∃ dates,
    eval getAllDates d = Ok dates
    ∧ Sorted (flip String.le) dates
    ∧ (length dates ≤ size (files d))%nat.
Proof.
  exists (dates_of (elements (dom (files d)))).
  split_and!; [apply eval_getAllDates|apply dates_of_descending|].
  unfold dates_of, JS.sort.
  rewrite length_reverse, merge_sort_Permutation, length_fmap.
  etrans; [apply length_filter|].
  change (size (dom (files d)) ≤ size (files d))%nat. by rewrite size_dom.
Qed.

(** The entries of the store of the tests have ".json" as a suffix only. *)
Lemma store_json_once (f : string) :
  is_Some (files Fixtures.store !! f) → JS.endsWith f ".json" = true → json_once f.
Proof.
  intros [raw Hraw] Hjson. unfold Fixtures.store, files in Hraw. simpl in Hraw.
  apply lookup_insert_Some in Hraw as [[<- _]|[_ Hraw]].
  { by exists "2025-02-01". }
  apply lookup_insert_Some in Hraw as [[<- _]|[_ Hraw]].
  { by exists "2025-03-01". }
  apply lookup_singleton_Some in Hraw as [<- _]. discriminate Hjson.
Qed.

Lemma getAllDates_strict_witness :
  ∃ dates,
    eval getAllDates Fixtures.store = Ok dates
    ∧ StronglySorted (λ x y, String.le y x ∧ x ≠ y) dates
    ∧ NoDup dates.
Proof. apply (getAllDates_strict Fixtures.store). apply store_json_once. Defined.

Section Latest.
Context `{Platform}.

(** X5. [getLatestPapers] reads the document of the first date of the
    listing, a date that no other date of the listing exceeds, and returns
    what [getPapersForDate] returns for it: null when that document is absent,
    its error when it cannot be parsed. With an empty listing it returns
    null. *)
Theorem getLatestPapers_greatest (d : FS) :
  ∃ dates,
    eval getAllDates d = Ok dates
    ∧ match dates with
      | [] => eval getLatestPapers d = Ok None
      | date0 :: rest =>
          eval getLatestPapers d = eval (getPapersForDate date0) d
          ∧ Forall (λ date, String.le date date0) rest
      end.
Proof.
  exists (dates_of (elements (dom (files d)))).
  split; [apply eval_getAllDates|].
  pose proof (dates_of_descending (elements (dom (files d)))) as Hsorted.
  rewrite eval_getLatestPapers, eval_getAllDates. simpl.
  destruct (dates_of _) as [|date0 rest]; [done|]. split; [done|].
  apply Sorted_StronglySorted in Hsorted; [|apply _].
  by apply StronglySorted_cons in Hsorted as [? _].
Qed.

End Latest.

(** ** Saving, then reading *)

Section Saving.
Context `{Platform}.

Lemma exec_saveDailyPapers (daily : DailyPapers) (d : FS) :
  exec (saveDailyPapers daily) d
  = Some (<[DailyPapers.date daily +:+ ".json" := JSON_stringify (daily_toJSON daily)]>
            (files d)).
Proof. unfold exec. by rewrite saveDailyPapers_run. Qed.

Lemma save_then_listed_aux (d : FS) (daily : DailyPapers) :
  JS.includes (DailyPapers.date daily) ".json" = false
  → DailyPapers.date daily
    ∈ dates_of (elements (dom (files (exec (saveDailyPapers daily) d)))).
Proof.
  intros Hdate. rewrite exec_saveDailyPapers. simpl. apply elem_of_dates_of.
  exists (DailyPapers.date daily +:+ ".json"). split_and!.
  - rewrite elem_of_elements, dom_insert_L. apply elem_of_union_l, elem_of_singleton.
    done.
  - apply endsWith_spec. by eexists.
  - by rewrite replace_json_suffix.
Qed.

(** X6. After [saveDailyPapers daily], for a date that is a plain name in
    which ".json" does not occur, as a date YYYY-MM-DD is, the date is in the
    listing of [getAllDates], and so is every name that was listed before:
    saving makes the batch visible and hides none. *)
Theorem save_then_listed (d : FS) (daily : DailyPapers)
    (Hplain : plain_name (DailyPapers.date daily) = true)
    (Hdate : JS.includes (DailyPapers.date daily) ".json" = false) :
  ∃ before after,
    eval getAllDates d = Ok before
    ∧ eval getAllDates (exec (saveDailyPapers daily) d) = Ok after
    ∧ DailyPapers.date daily ∈ after
    ∧ ∀ x, x ∈ before → x ∈ after.
Proof.
  eexists _, _. split_and!; [apply eval_getAllDates|apply eval_getAllDates|..].
  - by apply save_then_listed_aux.
  - intros x (f & Hf & Hjson & ->)%elem_of_dates_of.
    apply elem_of_dates_of. exists f. split_and!; [|done..].
    rewrite exec_saveDailyPapers. simpl.
    rewrite elem_of_elements, dom_insert_L in *. by apply elem_of_union_r.
Qed.

(** X7. [saveDailyPapers] touches the document of its own date only: for
    every other date, both dates being plain names, [getPapersForDate]
    returns after the save what it returned before. *)
Theorem save_keeps_other_dates (d : FS) (daily : DailyPapers) (date : string)
    (Hsaved : plain_name (DailyPapers.date daily) = true)
    (Hplain : plain_name date = true)
    (Hother : date ≠ DailyPapers.date daily) :
  eval (getPapersForDate date) (exec (saveDailyPapers daily) d)
  = eval (getPapersForDate date) d.
Proof.
  rewrite !eval_getPapersForDate, exec_saveDailyPapers. unfold read_document. simpl.
  rewrite lookup_insert_ne; [done|].
  intros Heq. apply Hother. symmetry. by apply (app_inv_tail_string _ _ ".json").
Qed.

(** X8. The last save of a date wins: saving [daily1] and then [daily2] of
    the same date leaves the directory as saving [daily2] alone does. *)
Theorem last_save_wins (d : FS) (daily1 daily2 : DailyPapers)
    (Hdate : DailyPapers.date daily1 = DailyPapers.date daily2) :
  exec (saveDailyPapers daily2) (exec (saveDailyPapers daily1) d)
  = exec (saveDailyPapers daily2) d.
Proof.
  rewrite !exec_saveDailyPapers. simpl. by rewrite Hdate, insert_insert_eq.
Qed.

(** X9. What is saved is served: after [saveDailyPapers daily], for a
    [daily] that the JSON codec takes to text and back and a date that is a
    plain name in which ".json" does not occur, as a date YYYY-MM-DD is,
    every paper of [daily] is among the papers that [getAllPapers] returns,
    whenever it returns. *)
Theorem saved_papers_served (d : FS) (daily : DailyPapers) (all : list Paper) (p : Paper)
    (Hjson : JSON_parse (JSON_stringify (daily_toJSON daily)) = Ok (Some daily))
    (Hplain : plain_name (DailyPapers.date daily) = true)
    (Hdate : JS.includes (DailyPapers.date daily) ".json" = false)
    (Hall : eval getAllPapers (exec (saveDailyPapers daily) d) = Ok all)
    (Hp : p ∈ DailyPapers.papers daily) :
  p ∈ all.
Proof.
  pose proof (save_then_listed_aux d daily Hdate) as Hlisted.
  set (d' := exec (saveDailyPapers daily) d) in *.
  rewrite eval_getAllPapers, eval_getAllDates in Hall. simpl in Hall.
  destruct (mapM _ _) as [docs|e] eqn:Hdocs; [|done]. result_simpl. simplify_eq.
  apply list_elem_of_split in Hlisted as (newer & older & Hsplit).
  rewrite Hsplit in Hdocs.
  apply mapM_Ok_app in Hdocs as (docs1 & docs2 & -> & _ & Hdocs2).
  simpl in Hdocs2.
  assert (eval (getPapersForDate (DailyPapers.date daily)) d' = Ok (Some daily)) as Hread.
  { unfold d'. rewrite eval_getPapersForDate, exec_saveDailyPapers.
    unfold read_document. simpl. by rewrite lookup_insert_eq, Hjson. }
  rewrite Hread in Hdocs2. simpl in Hdocs2.
  destruct (mapM _ older) as [docs3|e]; [|done]. result_simpl. simplify_eq.
  rewrite fmap_app, concat_app, fmap_cons. cbn [concat papers_of].
  rewrite !elem_of_app. auto.
Qed.

End Saving.

(** ** More on search *)

Lemma Matches_lower (query : string) (p : Paper) :
  Matches (JS.toLowerCase query) p ↔ Matches query p.
Proof. unfold Matches. by rewrite toLowerCase_idem. Qed.

Lemma Matches_narrow (q1 q2 : string) (p : Paper) :
  substring_of (JS.toLowerCase q1) (JS.toLowerCase q2) → Matches q2 p → Matches q1 p.
Proof.
  intros Hq. unfold Matches. cbv zeta.
  intros [?|[?|[?|[(a & ? & ?)|(t & ? & ?)]]]];
    eauto 10 using substring_of_trans.
Qed.

Lemma occurs_in_Matches (query : string) (p : Paper) : occurs_in query p → Matches query p.
Proof.
  unfold occurs_in, Matches. cbv zeta.
  intros [?|[?|[?|[(a & ? & ?)|(t & ? & ?)]]]]; eauto 10 using substring_of_lower.
Qed.

Section MoreSearch.
Context `{Platform}.

(** X10. On text of code units below 256 (Latin-1), the strings of this
    model, where lowercasing works unit by unit: a search finds every paper
    in which the query occurs. Where [getAllPapers] returns [all], a paper of
    [all] whose title, abstract or summary, or one of whose authors or tags,
    contains the query as it is written is among the results. *)
Theorem search_finds_occurrence (d : FS) (query : string) (all : list Paper) (p : Paper)
    (Hall : eval getAllPapers d = Ok all)
    (Hp : p ∈ all)
    (Hoccurs : occurs_in query p) :
  ∃ found, eval (searchPapers query) d = Ok found ∧ p ∈ found.
Proof.
  exists (filter (Matches query) all).
  split; [by rewrite eval_searchPapers, Hall|].
  apply list_elem_of_filter. split; [by apply occurs_in_Matches|done].
Qed.

(** X11. The case of the query does not matter: two queries with the same
    lowercase, such as a query and its lowercase, have the same outcome,
    results and errors alike. *)
Theorem search_ignores_case (d : FS) (query1 query2 : string)
    (Hlower : JS.toLowerCase query1 = JS.toLowerCase query2) :
  eval (searchPapers query1) d = eval (searchPapers query2) d
  ∧ eval (searchPapers (JS.toLowerCase query1)) d = eval (searchPapers query1) d.
Proof.
  rewrite !eval_searchPapers.
  destruct (eval getAllPapers d) as [all|e]; [|done]. simpl. unfold mret, result_ret.
  split; f_equal; apply list_filter_iff; intros p.
  - by rewrite <-(Matches_lower query1), <-(Matches_lower query2), Hlower.
  - apply Matches_lower.
Qed.

(** X12. A longer query narrows the search: when the lowercase of
    [query1] occurs in the lowercase of [query2], the results for [query2]
    are among the results for [query1], in the same order. *)
Theorem search_narrows (d : FS) (query1 query2 : string) (all : list Paper)
    (Hall : eval getAllPapers d = Ok all)
    (Hquery : substring_of (JS.toLowerCase query1) (JS.toLowerCase query2)) :
  ∃ found1 found2,
    eval (searchPapers query1) d = Ok found1
    ∧ eval (searchPapers query2) d = Ok found2
    ∧ found2 `sublist_of` found1.
Proof.
  exists (filter (Matches query1) all), (filter (Matches query2) all).
  rewrite !eval_searchPapers, Hall. split_and!; [done..|].
  assert (filter (Matches query2) all
          = filter (Matches query2) (filter (Matches query1) all)) as ->;
    [|apply sublist_filter].
  rewrite list_filter_filter. apply list_filter_iff. intros p.
  split; [|tauto]. intros Hm. split; [done|]. by apply (Matches_narrow query1 query2).
Qed.

(** ** Errors of reading *)

(** X13. An unreadable document fails every aggregate, with no partial
    result: when the documents of the dates before [date] in the listing are
    read and the document of [date] throws [e], then [getAllPapers],
    [getPaperById] and [searchPapers] throw [e]. *)
Theorem unreadable_document_fails_all (d : FS) (newer older : list string) (date : string)
    (e : JS.Error) (id query : string)
    (Hdates : eval getAllDates d = Ok (newer ++ date :: older))
    (Hnewer : ∀ date', date' ∈ newer → ∃ doc, eval (getPapersForDate date') d = Ok doc)
    (Hdate : eval (getPapersForDate date) d = Throw e) :
  eval getAllPapers d = Throw e
  ∧ eval (getPaperById id) d = Throw e
  ∧ eval (searchPapers query) d = Throw e.
Proof.
  assert (eval getAllPapers d = Throw e) as Hall.
  { rewrite eval_getAllPapers, Hdates. simpl. clear Hdates.
    induction newer as [|date' newer IH]; simpl.
    - by rewrite Hdate.
    - destruct (Hnewer date') as [doc ->]; [apply list_elem_of_here|]. simpl.
      destruct (mapM _ (newer ++ date :: older)) as [docs|e'] eqn:Hdocs.
      + exfalso. cut (Ok docs ≫= (λ docs, mret (concat (papers_of <$> docs)))
                      = (Throw e : result (list Paper))); [done|].
        apply IH. intros date'' ?. apply Hnewer. by apply list_elem_of_further.
      + simpl. f_equal.
        cut (Throw e' ≫= (λ docs, mret (concat (papers_of <$> docs)))
             = (Throw e : result (list Paper))); [by intros [= ->]|].
        apply IH. intros date'' ?. apply Hnewer. by apply list_elem_of_further. }
  split_and!; [done|..].
  - by rewrite eval_getPaperById, Hall.
  - by rewrite eval_searchPapers, Hall.
Qed.

(** ** The static parameters of the pages *)

Lemma find_id_Some (all : list Paper) (p : Paper) :
  p ∈ all
  → ∃ p', List.find (λ x, String.eqb (Paper.id x) (Paper.id p)) all = Some p'
          ∧ Paper.id p' = Paper.id p.
Proof.
  induction all as [|x all IH]; intros Hp; [by apply elem_of_nil in Hp|].
  simpl. destruct (String.eqb_spec (Paper.id x) (Paper.id p)) as [Hx|Hx]; [by eauto|].
  apply elem_of_cons in Hp as [->|Hp]; [done|]. by apply IH.
Qed.

(** X14. [generateStaticParams] makes one parameter of every paper that
    [getAllPapers] returns, in its order, and each of them leads to a paper:
    for every slug generated, [getPaperById] returns a paper with that
    identifier, never null. *)
Theorem static_params_resolve (d : FS) (all : list Paper)
    (Hall : eval getAllPapers d = Ok all) :
  eval PaperDetailPage.generateStaticParams d
  = Ok ((λ p, PaperDetailPage.mkParams (Paper.id p)) <$> all)
  ∧ ∀ params,
      params ∈ (λ p, PaperDetailPage.mkParams (Paper.id p)) <$> all
      → ∃ p, eval (getPaperById (PaperDetailPage.slug params)) d = Ok (Some p)
             ∧ Paper.id p = PaperDetailPage.slug params.
Proof.
  split.
  - unfold eval, PaperDetailPage.generateStaticParams, mbind, M_bind in *.
    destruct (getAllPapers d) as [r d']. simpl in Hall. by subst r.
  - intros params (p & -> & Hp)%list_elem_of_fmap. simpl.
    rewrite eval_getPaperById, Hall. simpl.
    destruct (find_id_Some all p Hp) as (p' & -> & ?). by exists p'.
Qed.

End MoreSearch.

(** ** The REST adapter, by date and by default *)

(** A response at hand, of a known status. *)
Ltac respond :=
  simpl; eexists; split; [reflexivity|]; simpl;
  split; [auto|]; intros; first [reflexivity|discriminate].

Section MoreRest.
Context `{Platform}.

Lemma eval_GET_date (d : FS) (date : string) (q limit : option string) :
  if_truthy q = None
  → date ≠ ""
  → eval (PapersRoute.GET (PapersRoute.mkParams (Some date) q limit)) d
    = Ok match eval (getPapersForDate date) d with
         | Ok (Some daily) => mkResponse 200 (daily_toJSON daily)
         | Ok None => mkResponse 404 (error_body ("No papers found for date " +:+ date))
         | Throw _ => internal_error
         end.
Proof.
  intros Hq Hdate. unfold eval, PapersRoute.GET, try_catch.
  cbn [PapersRoute.q PapersRoute.date PapersRoute.limit].
  rewrite Hq, if_truthy_nonempty by done. unfold mbind, M_bind.
  by destruct (getPapersForDate date d) as [[[daily|]|e] d'].
Qed.

Lemma eval_GET_default (d : FS) (date q limit : option string) :
  if_truthy q = None
  → if_truthy date = None
  → eval (PapersRoute.GET (PapersRoute.mkParams date q limit)) d
    = Ok match eval getLatestPapers d with
         | Ok latest =>
             mkResponse 200
               (JS.JObj [("latest", from_option daily_toJSON JS.JNull latest);
                         ("availableDates",
                          strings_toJSON (dates_of (elements (dom (files d)))))])
         | Throw _ => internal_error
         end.
Proof.
  intros Hq Hdate. unfold PapersRoute.GET, try_catch, eval at 1.
  cbn [PapersRoute.q PapersRoute.date PapersRoute.limit].
  rewrite Hq, Hdate. unfold mbind, M_bind. rewrite getLatestPapers_run.
  destruct (eval getLatestPapers d) as [latest|e]; [|done].
  by rewrite getAllDates_run.
Qed.

(** X15. A request by date, for a date that is a plain name, without a
    query: the answer is 404 with the message "No papers found for date" and
    the date when the directory has no entry for the date or the entry holds
    the text of null, 200 with the document when the text parses to one, and
    500 with the fixed message when it does not parse; the limit parameter
    plays no part. *)
Theorem GET_by_date (d : FS) (date : string) (q limit : option string)
    (Hq : if_truthy q = None)
    (Hdate : date ≠ "")
    (Hplain : plain_name date = true) :
  eval (PapersRoute.GET (PapersRoute.mkParams (Some date) q limit)) d
  = Ok match files d !! (date +:+ ".json") with
       | None => mkResponse 404 (error_body ("No papers found for date " +:+ date))
       | Some raw =>
           match JSON_parse raw with
           | Ok (Some daily) => mkResponse 200 (daily_toJSON daily)
           | Ok None => mkResponse 404 (error_body ("No papers found for date " +:+ date))
           | Throw _ => internal_error
           end
       end.
Proof.
  rewrite eval_GET_date, eval_getPapersForDate by done. unfold read_document.
  by destruct (files d !! (date +:+ ".json")) as [raw|].
Qed.

(** X16. A request without query and date is answered 200 with the latest
    batch, null when there is none, and the listing of [getAllDates] as the
    available dates; on a directory without entries that is null and the
    empty list. Only an unreadable latest document makes it 500. *)
Theorem GET_default (d : FS) (date q limit : option string)
    (Hq : if_truthy q = None)
    (Hdate : if_truthy date = None) :
  ∃ dates,
    eval getAllDates d = Ok dates
    ∧ eval (PapersRoute.GET (PapersRoute.mkParams date q limit)) d
      = Ok match eval getLatestPapers d with
           | Ok latest =>
               mkResponse 200
                 (JS.JObj [("latest", from_option daily_toJSON JS.JNull latest);
                           ("availableDates", strings_toJSON dates)])
           | Throw _ => internal_error
           end
    ∧ (files d = ∅
       → eval (PapersRoute.GET (PapersRoute.mkParams date q limit)) d
         = Ok (mkResponse 200
                 (JS.JObj [("latest", JS.JNull); ("availableDates", JS.JArr [])]))).
Proof.
  exists (dates_of (elements (dom (files d)))).
  split_and!; [apply eval_getAllDates|by apply eval_GET_default|].
  intros Hempty. rewrite eval_GET_default by done.
  assert (dates_of (elements (dom (files d))) = []) as Hdates.
  { by rewrite Hempty, dom_empty_L, elements_empty. }
  by rewrite eval_getLatestPapers, eval_getAllDates, Hdates.
Qed.

(** X17. A query that is not empty overrides the date: the request is
    answered as if no date were given. An empty query is no query: the
    request is answered as if [q] were absent. *)
Theorem GET_query_precedence (d : FS) (date limit : option string) (query : string)
    (Hquery : query ≠ "") :
  PapersRoute.GET (PapersRoute.mkParams date (Some query) limit) d
  = PapersRoute.GET (PapersRoute.mkParams None (Some query) limit) d
  ∧ PapersRoute.GET (PapersRoute.mkParams date (Some "") limit) d
    = PapersRoute.GET (PapersRoute.mkParams date None limit) d.
Proof.
  split; [|done]. unfold PapersRoute.GET.
  cbn [PapersRoute.q PapersRoute.date PapersRoute.limit].
  by rewrite if_truthy_nonempty.
Qed.

(** X18. The handler answers every request: with 200, 404 or 500 and
    nothing else, it never throws; and a 500 carries the fixed message
    "Internal server error", not the error that was thrown. *)
Theorem GET_responds (d : FS) (params : PapersRoute.SearchParams) :
  ∃ response,
    eval (PapersRoute.GET params) d = Ok response
    ∧ (status response = 200 ∨ status response = 404 ∨ status response = 500)
    ∧ (status response = 500 → response = internal_error).
Proof.
  destruct params as [date q limit].
  destruct (if_truthy q) as [query|] eqn:Hq.
  - unfold eval, PapersRoute.GET, try_catch.
    cbn [PapersRoute.q PapersRoute.date PapersRoute.limit]. rewrite Hq.
    unfold mbind, M_bind.
    destruct (searchPapers query d) as [[found|e] d']; respond.
  - destruct (if_truthy date) as [date'|] eqn:Hdate.
    + assert (date = Some date' ∧ date' ≠ "") as [-> Hne].
      { unfold if_truthy, JS.truthy_string in Hdate.
        destruct date as [s|]; [|done].
        destruct (String.eqb_spec s ""); simpl in Hdate; by simplify_eq. }
      rewrite eval_GET_date by done.
      destruct (eval (getPapersForDate date') d) as [[daily|]|e]; respond.
    + rewrite eval_GET_default by done.
      destruct (eval getLatestPapers d) as [latest|e]; respond.
Qed.

(** ** The route of one paper *)

Lemma eval_GET_paper (d : FS) (id : string) :
  eval (PaperRoute.GET id) d
  = Ok match eval (getPaperById id) d with
       | Ok (Some paper) => mkResponse 200 (paper_toJSON paper)
       | Ok None =>
           mkResponse 404
             (error_body ("Paper with id " +:+ JS.quote +:+ id +:+ JS.quote +:+ " not found"))
       | Throw _ => internal_error
       end.
Proof.
  unfold eval, PaperRoute.GET, try_catch, mbind, M_bind.
  by destruct (getPaperById id d) as [[[paper|]|e] d'].
Qed.

(** X19. The route of one paper answers 200 with the first paper of
    [getAllPapers] that has the identifier, and 404 with a message naming
    the identifier when no paper has it; when the papers cannot be read it
    answers 500 with the fixed message. *)
Theorem GET_paper_by_id (d : FS) (id : string) :
  (∀ all,
     eval getAllPapers d = Ok all
     → ∃ r,
         first_match id all r
         ∧ eval (PaperRoute.GET id) d
           = Ok match r with
                | Some paper => mkResponse 200 (paper_toJSON paper)
                | None =>
                    mkResponse 404
                      (error_body ("Paper with id " +:+ JS.quote +:+ id +:+ JS.quote
                                   +:+ " not found"))
                end)
  ∧ (∀ e, eval getAllPapers d = Throw e → eval (PaperRoute.GET id) d = Ok internal_error).
Proof.
  split.
  - intros all Hall. exists (List.find (λ p, String.eqb (Paper.id p) id) all).
    split; [apply find_first_match|].
    by rewrite eval_GET_paper, eval_getPaperById, Hall.
  - intros e Hall. by rewrite eval_GET_paper, eval_getPaperById, Hall.
Qed.

End MoreRest.

(** ** The adapters do not write *)

Lemma read_only_ret {A} (a : A) : read_only (mret a).
Proof. by intros d. Qed.

Lemma read_only_throw {A} (e : JS.Error) : read_only (throw (A:=A) e).
Proof. by intros d. Qed.

Lemma read_only_lift {A} (r : result A) : read_only (lift r).
Proof. by intros d. Qed.

Lemma read_only_bind {A B} (m : M A) (f : A → M B) :
  read_only m → (∀ a, read_only (f a)) → read_only (m ≫= f).
Proof.
  intros Hm Hf d. specialize (Hm d). unfold exec, mbind, M_bind in *.
  destruct (m d) as [[a|e] d']; simpl in *; [|done].
  by rewrite <-Hm, <-(Hf a d').
Qed.

Lemma read_only_try_catch {A} (body : M A) (handler : JS.Error → M A) :
  read_only body → (∀ e, read_only (handler e)) → read_only (try_catch body handler).
Proof.
  intros Hm Hf d. specialize (Hm d). unfold exec, try_catch in *.
  destruct (body d) as [[a|e] d']; simpl in *; [done|].
  by rewrite <-Hm, <-(Hf e d').
Qed.

Section ReadOnly.
Context `{Platform}.

Lemma read_only_getAllDates : read_only getAllDates.
Proof. intros d. unfold exec. by rewrite getAllDates_run. Qed.

Lemma read_only_getPapersForDate (date : string) : read_only (getPapersForDate date).
Proof. intros d. unfold exec. by rewrite getPapersForDate_run. Qed.

Lemma read_only_getLatestPapers : read_only getLatestPapers.
Proof. intros d. unfold exec. by rewrite getLatestPapers_run. Qed.

Lemma read_only_getAllPapers : read_only getAllPapers.
Proof. intros d. unfold exec. by rewrite getAllPapers_run. Qed.

Lemma read_only_getPaperById (id : string) : read_only (getPaperById id).
Proof. intros d. unfold exec. by rewrite getPaperById_run. Qed.

Lemma read_only_searchPapers (query : string) : read_only (searchPapers query).
Proof. intros d. unfold exec. by rewrite searchPapers_run. Qed.

End ReadOnly.

(** The handlers are built of reads of the repository. *)
Ltac read_only :=
  repeat first
    [ apply read_only_ret
    | apply read_only_throw
    | apply read_only_lift
    | apply read_only_getAllDates
    | apply read_only_getPapersForDate
    | apply read_only_getLatestPapers
    | apply read_only_getAllPapers
    | apply read_only_getPaperById
    | apply read_only_searchPapers
    | apply read_only_try_catch; [|intros ?]
    | apply read_only_bind; [|intros ?]
    | match goal with
      | |- read_only (match ?x with _ => _ end) => destruct x
      | |- read_only (if ?b then _ else _) => destruct b
      end ].

Section AdaptersReadOnly.
Context `{Platform}.

Lemma read_only_dispatch (name : string) (args : McpRoute.Args) :
  read_only (McpRoute.dispatch name args).
Proof. unfold McpRoute.dispatch. read_only. Qed.

(** X20. No handler of the adapters writes: after a request to the REST
    adapter, to the route of one paper or to the tool-call adapter, after a
    tool call or the generation of the static parameters, whatever the
    request and the outcome, the directory holds the entries it held
    before. *)
Theorem adapters_leave_entries (d : FS) (params : PapersRoute.SearchParams) (id name : string)
    (args : McpRoute.Args) (request_json : result (option McpRoute.Body)) :
  files (exec (PapersRoute.GET params) d) = files d
  ∧ files (exec (PaperRoute.GET id) d) = files d
  ∧ files (exec (McpRoute.executeTool name args) d) = files d
  ∧ files (exec (McpRoute.POST request_json) d) = files d
  ∧ files (exec PaperDetailPage.generateStaticParams d) = files d.
Proof.
  split_and!.
  - revert d. change (read_only (PapersRoute.GET params)).
    unfold PapersRoute.GET. read_only.
  - revert d. change (read_only (PaperRoute.GET id)).
    unfold PaperRoute.GET. read_only.
  - revert d. change (read_only (McpRoute.executeTool name args)).
    unfold McpRoute.executeTool. apply read_only_try_catch; [|intros ?; read_only].
    apply read_only_dispatch.
  - revert d. change (read_only (McpRoute.POST request_json)).
    unfold McpRoute.POST. apply read_only_try_catch; [|intros ?; read_only].
    apply read_only_bind; [read_only|]. intros [body|]; [|read_only].
    destruct (if_truthy _); [|read_only].
    apply read_only_bind; [|intros ?; read_only].
    unfold McpRoute.executeTool. apply read_only_try_catch; [|intros ?; read_only].
    apply read_only_dispatch.
  - revert d. change (read_only PaperDetailPage.generateStaticParams).
    unfold PaperDetailPage.generateStaticParams. read_only.
Qed.

End AdaptersReadOnly.

(** ** The tools *)

Section Tools.
Context `{Platform}.
Import McpRoute.

Lemma eval_bind {A B} (m : M A) (f : A → M B) (d : FS) :
  eval (m ≫= f) d = match m d with
                    | (Ok a, d') => eval (f a) d'
                    | (Throw e, _) => Throw e
                    end.
Proof. unfold eval, mbind, M_bind. by destruct (m d) as [[a|e] d']. Qed.

Lemma eval_dispatch_latest (args : Args) (d : FS) :
  eval (dispatch "get_latest_papers" args) d
  = (daily ← eval getLatestPapers d;
     mret match daily with
          | None => mkResult ["No papers available yet."] None
          | Some daily =>
              mkResult
                [JSON_stringify
                   (JS.JObj [("date", JS.JStr (DailyPapers.date daily));
                             ("papers",
                              papers_toJSON
                                (JS.slice0 (DailyPapers.papers daily)
                                   (JS.Num (default 10 (arg_limit args)))));
                             ("total",
                              JS.JNum (Z.of_nat (length (DailyPapers.papers daily))))])]
                None
          end).
Proof.
  unfold dispatch. simpl. rewrite eval_bind, getLatestPapers_run.
  by destruct (eval getLatestPapers d) as [[daily|]|e].
Qed.

Lemma eval_dispatch_by_date (args : Args) (d : FS) :
  eval (dispatch "get_papers_by_date" args) d
  = (daily ← eval (getPapersForDate (template (arg_date args))) d;
     mret match daily with
          | None =>
              mkResult ["No papers found for date " +:+ template (arg_date args)] (Some true)
          | Some daily =>
              mkResult
                [JSON_stringify
                   (JS.JObj (optional "date" (arg_date args)
                             ++ [("papers",
                                  papers_toJSON
                                    (shown_by_date (arg_limit args)
                                       (DailyPapers.papers daily)))]))]
                None
          end).
Proof.
  unfold dispatch. simpl. rewrite eval_bind, getPapersForDate_run, eval_getPapersForDate.
  by destruct (read_document _ _) as [[daily|]|e].
Qed.

Lemma eval_dispatch_by_id (id : string) (date query : option string) (limit : option Z)
    (d : FS) :
  eval (dispatch "get_paper_by_id" (mkArgs date (Some id) query limit)) d
  = (paper ← eval (getPaperById id) d;
     mret match paper with
          | None =>
              mkResult ["Paper " +:+ JS.quote +:+ id +:+ JS.quote +:+ " not found"] (Some true)
          | Some paper => mkResult [JSON_stringify (paper_toJSON paper)] None
          end).
Proof.
  unfold dispatch. simpl. rewrite eval_bind, getPaperById_run.
  by destruct (eval (getPaperById id) d) as [[paper|]|e].
Qed.

Lemma eval_dispatch_search (query : string) (date id : option string) (limit : option Z)
    (d : FS) :
  eval (dispatch "search_papers" (mkArgs date id (Some query) limit)) d
  = (found ← eval (searchPapers query) d;
     let shown := JS.slice0 found (JS.Num (default 10 limit)) in
     mret (mkResult
             [JSON_stringify
                (JS.JObj [("query", JS.JStr query);
                          ("results", papers_toJSON shown);
                          ("total", JS.JNum (Z.of_nat (length shown)))])]
             None)).
Proof.
  unfold dispatch. simpl. rewrite eval_bind, searchPapers_run.
  by destruct (eval (searchPapers query) d) as [found|e].
Qed.

Lemma eval_dispatch_list_dates (args : Args) (d : FS) :
  eval (dispatch "list_dates" args) d
  = Ok (mkResult
          [JSON_stringify
             (JS.JObj [("dates", strings_toJSON (dates_of (elements (dom (files d)))))])]
          None).
Proof. unfold dispatch. simpl. by rewrite eval_bind, getAllDates_run. Qed.

(** X21. [get_latest_papers] shows the first papers of the latest batch, 10
    of them when no limit is given and none under the limit 0, and counts
    under [total] all papers of the batch, shown or not; without any batch it
    answers "No papers available yet." and sets no error flag. *)
Theorem get_latest_papers_tool (d : FS) (args : Args) :
  (eval getLatestPapers d = Ok None
   → eval (executeTool "get_latest_papers" args) d
     = Ok (mkResult ["No papers available yet."] None))
  ∧ (∀ daily,
       eval getLatestPapers d = Ok (Some daily)
       → ∃ shown,
           eval (executeTool "get_latest_papers" args) d
           = Ok (mkResult
                   [JSON_stringify
                      (JS.JObj [("date", JS.JStr (DailyPapers.date daily));
                                ("papers", papers_toJSON shown);
                                ("total",
                                 JS.JNum (Z.of_nat (length (DailyPapers.papers daily))))])]
                   None)
           ∧ shown `prefix_of` DailyPapers.papers daily
           ∧ (arg_limit args = None → shown = take 10 (DailyPapers.papers daily))
           ∧ (arg_limit args = Some 0 → shown = [])).
Proof.
  split.
  - intros Hlatest. by rewrite eval_executeTool, eval_dispatch_latest, Hlatest.
  - intros daily Hlatest. eexists. split_and!.
    + by rewrite eval_executeTool, eval_dispatch_latest, Hlatest.
    + apply slice0_prefix.
    + intros ->. simpl. by rewrite slice0_take.
    + intros ->. simpl. apply slice0_zero.
Qed.

(** X22. [search_papers] shows the first results of the search, 10 of them
    when no limit is given and N of them under a limit N from 1 on, and
    counts under [total] the results it shows, not those it found. *)
Theorem search_papers_tool (d : FS) (query : string) (date id : option string)
    (limit : option Z) (found : list Paper)
    (Hfound : eval (searchPapers query) d = Ok found) :
  ∃ shown,
    eval (executeTool "search_papers" (mkArgs date id (Some query) limit)) d
    = Ok (mkResult
            [JSON_stringify
               (JS.JObj [("query", JS.JStr query);
                         ("results", papers_toJSON shown);
                         ("total", JS.JNum (Z.of_nat (length shown)))])]
            None)
    ∧ shown `prefix_of` found
    ∧ (limit = None → shown = take 10 found)
    ∧ (∀ N, limit = Some N → 1 ≤ N → shown = take (Z.to_nat N) found).
Proof.
  eexists. split_and!.
  - by rewrite eval_executeTool, eval_dispatch_search, Hfound.
  - apply slice0_prefix.
  - intros ->. simpl. by rewrite slice0_take.
  - intros N -> HN. simpl. by rewrite slice0_take.
Qed.

(** X23. [get_paper_by_id] answers with the JSON text of the first paper of
    [getAllPapers] that has the identifier, without an error flag, and with
    the error result "Paper ... not found", naming the identifier, when no
    paper has it. *)
Theorem get_paper_by_id_tool (d : FS) (id : string) (date query : option string)
    (limit : option Z) (all : list Paper)
    (Hall : eval getAllPapers d = Ok all) :
  ∃ r,
    first_match id all r
    ∧ eval (executeTool "get_paper_by_id" (mkArgs date (Some id) query limit)) d
      = Ok match r with
           | Some paper => mkResult [JSON_stringify (paper_toJSON paper)] None
           | None =>
               mkResult ["Paper " +:+ JS.quote +:+ id +:+ JS.quote +:+ " not found"]
                 (Some true)
           end.
Proof.
  exists (List.find (λ p, String.eqb (Paper.id p) id) all).
  split; [apply find_first_match|].
  rewrite eval_executeTool, eval_dispatch_by_id, eval_getPaperById, Hall. simpl.
  by destruct (List.find _ all).
Qed.

Lemma slice0_negative {A} (arr : list A) (N : Z) :
  N < 0 → JS.slice0 arr (JS.Num N) = take (length arr - Z.to_nat (- N)) arr.
Proof.
  intros HN. unfold JS.slice0. simpl.
  destruct (Z.ltb_spec N 0) as [_|]; [|lia]. f_equal. lia.
Qed.

(** X24. [get_papers_by_date] answers a date that is a plain name and
    has no entry in the directory, and any date for which [getPapersForDate]
    returns null, with the error result "No papers found for date" and the
    date. For a date with a document it shows all its papers when no limit is
    given, the first N under a limit N from 1 on, and all but the last N
    under the limit -N. *)
Theorem get_papers_by_date_tool (d : FS) (date : string) (id query : option string)
    (limit : option Z)
    (Hplain : plain_name date = true) :
  (files d !! (date +:+ ".json") = None
   → eval (executeTool "get_papers_by_date" (mkArgs (Some date) id query limit)) d
     = Ok (mkResult ["No papers found for date " +:+ date] (Some true)))
  ∧ (eval (getPapersForDate date) d = Ok None
     → eval (executeTool "get_papers_by_date" (mkArgs (Some date) id query limit)) d
       = Ok (mkResult ["No papers found for date " +:+ date] (Some true)))
  ∧ (∀ daily,
       eval (getPapersForDate date) d = Ok (Some daily)
       → ∃ shown,
           eval (executeTool "get_papers_by_date" (mkArgs (Some date) id query limit)) d
           = Ok (mkResult
                   [JSON_stringify
                      (JS.JObj [("date", JS.JStr date); ("papers", papers_toJSON shown)])]
                   None)
           ∧ (limit = None → shown = DailyPapers.papers daily)
           ∧ (∀ N, limit = Some N → 1 ≤ N
                → shown = take (Z.to_nat N) (DailyPapers.papers daily))
           ∧ (∀ N, limit = Some N → N < 0
                → shown = take (length (DailyPapers.papers daily) - Z.to_nat (- N))
                            (DailyPapers.papers daily))).
Proof.
  split_and!.
  - intros Habsent. rewrite eval_executeTool, eval_dispatch_by_date. simpl.
    rewrite eval_getPapersForDate. unfold read_document. by rewrite Habsent.
  - intros Hnull. rewrite eval_executeTool, eval_dispatch_by_date. simpl.
    by rewrite Hnull.
  - intros daily Hdaily. exists (shown_by_date limit (DailyPapers.papers daily)).
    split_and!.
    + rewrite eval_executeTool, eval_dispatch_by_date. simpl. by rewrite Hdaily.
    + by intros ->.
    + intros N -> HN. unfold shown_by_date. simpl.
      destruct (Z.eqb_spec N 0); [lia|]. simpl. by apply slice0_take.
    + intros N -> HN. unfold shown_by_date. simpl.
      destruct (Z.eqb_spec N 0); [lia|]. simpl. by apply slice0_negative.
Qed.

(** X25. A tool called without the argument it needs does not bring the
    endpoint down. Where the papers can be read, [search_papers] without a
    query answers with the error result of a [TypeError], and
    [get_paper_by_id] without an identifier with the error result
    "Paper ... not found" that names "undefined". *)
Theorem tools_without_arguments (d : FS) (date : option string) (limit : option Z)
    (all : list Paper)
    (Hall : eval getAllPapers d = Ok all) :
  eval (executeTool "search_papers" (mkArgs date None None limit)) d
  = Ok (error_result "search_papers" TypeError_toLowerCase)
  ∧ eval (executeTool "get_paper_by_id" (mkArgs date None None limit)) d
    = Ok (mkResult ["Paper " +:+ JS.quote +:+ "undefined" +:+ JS.quote +:+ " not found"]
            (Some true)).
Proof.
  rewrite !eval_executeTool. unfold dispatch. simpl.
  rewrite !eval_bind. unfold mbind, M_bind. rewrite !getAllPapers_run.
  unfold eval in Hall. rewrite getAllPapers_run in Hall. simpl in Hall.
  by rewrite Hall.
Qed.

End Tools.

(** ** The catalog and the dispatcher *)

(** An equivalence between a status and the shape of the request. *)
Ltac status_iff :=
  split;
  [ first [discriminate | by eauto]
  | first [done
          | intros;
            repeat match goal with
                   | H : ∃ _, _ |- _ => destruct H
                   | H : _ ∧ _ |- _ => destruct H
                   | H : _ ∨ _ |- _ => destruct H
                   end;
            simplify_eq; congruence] ].

Section Catalog.
Context `{Platform}.
Import McpRoute.

Lemma error_result_not_unknown (name : string) (e : JS.Error) :
  error_result name e ≠ unknown_tool name.
Proof. unfold error_result, unknown_tool. by intros [= ]. Qed.

(** What a tool of the catalog returns is not the result for an unknown
    tool. *)
Lemma dispatch_known (name : string) (args : Args) (d : FS) (r : MCPToolResult) :
  name ∈ TOOLS → eval (dispatch name args) d = Ok r → r ≠ unknown_tool name.
Proof.
  unfold TOOLS. rewrite !elem_of_cons, elem_of_nil.
  destruct args as [date id query limit].
  intros [->|[->|[->|[->|[->|[]]]]]]; unfold dispatch, unknown_tool; simpl;
    rewrite eval_bind;
    match goal with |- context [?m d] => destruct (m d) as [[a|e] d'] end;
    try discriminate;
    repeat match goal with
           | x : option _ |- _ => destruct x
           end;
    unfold eval; simpl; intros [= <-]; by intros [= ].
Qed.

(** X26. The catalog and the dispatcher agree: for every directory and
    every arguments, a name is one of the five tools of the catalog exactly
    when its call is not answered with the error result "Unknown tool"; each
    tool of the catalog has its handler, and no other name has one. *)
Theorem catalog_matches_dispatch (d : FS) (name : string) (args : Args) :
  name ∈ TOOLS
  ↔ eval (executeTool name args) d
    ≠ Ok (mkResult ["Unknown tool: " +:+ name] (Some true)).
Proof.
  rewrite eval_executeTool. split.
  - intros Hname [= Hr].
    destruct (eval (dispatch name args) d) as [r|e] eqn:Hrun.
    + by apply (dispatch_known name args d r).
    + by apply (error_result_not_unknown name e).
  - intros Hr. destruct (decide (name ∈ TOOLS)) as [|Hname]; [done|].
    exfalso. apply Hr. by rewrite dispatch_unknown.
Qed.

(** X27. The tool-call endpoint answers every request, and with 500
    exactly when the body of the request cannot be read as JSON or is null:
    any other body is answered 400 when its name is missing or empty and 200
    otherwise, whatever the tool does. *)
Theorem POST_status (d : FS) (request_json : result (option Body)) :
  ∃ response,
    eval (POST request_json) d = Ok response
    ∧ (status response = 500 ↔ (∃ e, request_json = Throw e) ∨ request_json = Ok None)
    ∧ (status response = 400
       ↔ ∃ body, request_json = Ok (Some body) ∧ if_truthy (McpRoute.name body) = None)
    ∧ (status response = 200
       ↔ ∃ body n,
           request_json = Ok (Some body) ∧ if_truthy (McpRoute.name body) = Some n).
Proof.
  unfold eval, POST, try_catch, mbind at 1, M_bind, lift.
  destruct request_json as [[body|]|e].
  - destruct (if_truthy (McpRoute.name body)) as [n|] eqn:Hname.
    + unfold mbind, M_bind, executeTool, try_catch.
      destruct (dispatch n _ d) as [[r|e] d']; simpl;
        (eexists; split; [reflexivity|]; simpl; split_and!; status_iff).
    + simpl. eexists. split; [reflexivity|]. simpl. split_and!; status_iff.
  - simpl. eexists. split; [reflexivity|]. simpl. split_and!; status_iff.
  - simpl. eexists. split; [reflexivity|]. simpl. split_and!; status_iff.
Qed.

End Catalog.

(** ** The further properties at the store of the tests *)

Lemma save_then_listed_witness :
  ∃ before after,
    eval getAllDates Fixtures.store = Ok before
    ∧ eval getAllDates (exec (saveDailyPapers (H:=codec) Fixtures.daily1_again) Fixtures.store)
      = Ok after
    ∧ "2025-02-01" ∈ after
    ∧ ∀ x, x ∈ before → x ∈ after.
Proof.
  apply (save_then_listed (H:=codec) Fixtures.store Fixtures.daily1_again); reflexivity.
Defined.

Lemma save_keeps_other_dates_witness :
  eval (getPapersForDate (H:=codec) "2025-03-01")
    (exec (saveDailyPapers (H:=codec) Fixtures.daily1_again) Fixtures.store)
  = eval (getPapersForDate (H:=codec) "2025-03-01") Fixtures.store.
Proof.
  apply (save_keeps_other_dates (H:=codec) Fixtures.store Fixtures.daily1_again "2025-03-01").
  - reflexivity.
  - reflexivity.
  - discriminate.
Defined.

Lemma last_save_wins_witness :
  exec (saveDailyPapers (H:=codec) Fixtures.daily1_again)
    (exec (saveDailyPapers (H:=codec) Fixtures.daily1) Fixtures.store)
  = exec (saveDailyPapers (H:=codec) Fixtures.daily1_again) Fixtures.store.
Proof.
  apply (last_save_wins (H:=codec) Fixtures.store Fixtures.daily1 Fixtures.daily1_again).
  reflexivity.
Defined.

Lemma saved_papers_served_witness :
  Fixtures.mockPaper2 ∈ [Fixtures.mockPaper3; Fixtures.mockPaper2].
Proof.
  apply (saved_papers_served (H:=codec) Fixtures.store Fixtures.daily1_again
           [Fixtures.mockPaper3; Fixtures.mockPaper2] Fixtures.mockPaper2).
  - vm_compute. reflexivity.
  - reflexivity.
  - reflexivity.
  - vm_compute. reflexivity.
  - apply list_elem_of_here.
Defined.

Lemma search_finds_occurrence_witness :
  ∃ found,
    eval (searchPapers (H:=codec) "Technical") Fixtures.store = Ok found
    ∧ Fixtures.mockPaper3 ∈ found.
Proof.
  apply (search_finds_occurrence (H:=codec) Fixtures.store "Technical" Fixtures.all_papers
           Fixtures.mockPaper3).
  - vm_compute. reflexivity.
  - apply list_elem_of_here.
  - left. exists "GPT-4 ", " Report". reflexivity.
Defined.

Lemma search_ignores_case_witness :
  eval (searchPapers (H:=codec) "NLP") Fixtures.store
  = eval (searchPapers (H:=codec) "nlp") Fixtures.store
  ∧ eval (searchPapers (H:=codec) (JS.toLowerCase "NLP")) Fixtures.store
    = eval (searchPapers (H:=codec) "NLP") Fixtures.store.
Proof. apply (search_ignores_case (H:=codec) Fixtures.store "NLP" "nlp"). reflexivity. Defined.

Lemma search_narrows_witness :
  ∃ found1 found2,
    eval (searchPapers (H:=codec) "Trans") Fixtures.store = Ok found1
    ∧ eval (searchPapers (H:=codec) "TRANSFORMER model") Fixtures.store = Ok found2
    ∧ found2 `sublist_of` found1.
Proof.
  apply (search_narrows (H:=codec) Fixtures.store "Trans" "TRANSFORMER model"
           Fixtures.all_papers).
  - vm_compute. reflexivity.
  - exists "", "former model". reflexivity.
Defined.

(** The documents of the two dates before the broken one are read, and
    their three papers are given up. *)
Lemma unreadable_document_fails_all_witness :
  eval (getAllPapers (H:=codec)) Fixtures.stale_store = Throw Codec.SyntaxError
  ∧ eval (getPaperById (H:=codec) "2502.00001") Fixtures.stale_store
    = Throw Codec.SyntaxError
  ∧ eval (searchPapers (H:=codec) "nlp") Fixtures.stale_store = Throw Codec.SyntaxError.
Proof.
  apply (unreadable_document_fails_all (H:=codec) Fixtures.stale_store
           ["2025-03-01"; "2025-02-01"] [] "2025-01-01").
  - vm_compute. reflexivity.
  - intros date' [->|[->|Hdate']%elem_of_cons]%elem_of_cons.
    + exists (Some Fixtures.daily2). vm_compute. reflexivity.
    + exists (Some Fixtures.daily1). vm_compute. reflexivity.
    + by apply elem_of_nil in Hdate'.
  - vm_compute. reflexivity.
Defined.

Lemma static_params_resolve_witness :
  eval (PaperDetailPage.generateStaticParams (H:=codec)) Fixtures.store
  = Ok ((λ p, PaperDetailPage.mkParams (Paper.id p)) <$> Fixtures.all_papers)
  ∧ ∀ params,
      params ∈ (λ p, PaperDetailPage.mkParams (Paper.id p)) <$> Fixtures.all_papers
      → ∃ p, eval (getPaperById (H:=codec) (PaperDetailPage.slug params)) Fixtures.store
             = Ok (Some p)
             ∧ Paper.id p = PaperDetailPage.slug params.
Proof.
  apply (static_params_resolve (H:=codec) Fixtures.store Fixtures.all_papers).
  vm_compute. reflexivity.
Defined.

(** A date without a document, a document that holds null, and a document
    that is not JSON. *)
Lemma GET_by_date_witness :
  eval (PapersRoute.GET (H:=codec) (PapersRoute.mkParams (Some "1999-01-01") None (Some "5")))
    Fixtures.store
  = Ok (mkResponse 404 (error_body "No papers found for date 1999-01-01"))
  ∧ eval (PapersRoute.GET (H:=codec) (PapersRoute.mkParams (Some "2025-01-01") None None))
      Fixtures.null_store
    = Ok (mkResponse 404 (error_body "No papers found for date 2025-01-01"))
  ∧ eval (PapersRoute.GET (H:=codec) (PapersRoute.mkParams (Some "2025-04-01") None None))
      Fixtures.broken_store
    = Ok internal_error.
Proof.
  split_and!.
  - rewrite (GET_by_date (H:=codec) Fixtures.store "1999-01-01" None (Some "5"));
      [reflexivity|reflexivity|discriminate|reflexivity].
  - rewrite (GET_by_date (H:=codec) Fixtures.null_store "2025-01-01" None None);
      [vm_compute; reflexivity|reflexivity|discriminate|reflexivity].
  - rewrite (GET_by_date (H:=codec) Fixtures.broken_store "2025-04-01" None None);
      [vm_compute; reflexivity|reflexivity|discriminate|reflexivity].
Defined.

Lemma GET_default_witness :
  ∃ dates,
    eval getAllDates None = Ok dates
    ∧ eval (PapersRoute.GET (H:=codec) (PapersRoute.mkParams None None None)) None
      = Ok match eval (getLatestPapers (H:=codec)) None with
           | Ok latest =>
               mkResponse 200
                 (JS.JObj [("latest", from_option daily_toJSON JS.JNull latest);
                           ("availableDates", strings_toJSON dates)])
           | Throw _ => internal_error
           end
    ∧ (files None = ∅
       → eval (PapersRoute.GET (H:=codec) (PapersRoute.mkParams None None None)) None
         = Ok (mkResponse 200
                 (JS.JObj [("latest", JS.JNull); ("availableDates", JS.JArr [])]))).
Proof. apply (GET_default (H:=codec) None None None None); reflexivity. Defined.

Lemma GET_query_precedence_witness :
  PapersRoute.GET (H:=codec) (PapersRoute.mkParams (Some "2025-02-01") (Some "gpt") None)
    Fixtures.store
  = PapersRoute.GET (H:=codec) (PapersRoute.mkParams None (Some "gpt") None) Fixtures.store
  ∧ PapersRoute.GET (H:=codec) (PapersRoute.mkParams (Some "2025-02-01") (Some "") None)
      Fixtures.store
    = PapersRoute.GET (H:=codec) (PapersRoute.mkParams (Some "2025-02-01") None None)
        Fixtures.store.
Proof.
  apply (GET_query_precedence (H:=codec) Fixtures.store (Some "2025-02-01") None "gpt").
  discriminate.
Defined.

Lemma GET_paper_by_id_witness :
  (∃ r,
     first_match "2503.00003" Fixtures.all_papers r
     ∧ eval (PaperRoute.GET (H:=codec) "2503.00003") Fixtures.store
       = Ok match r with
            | Some paper => mkResponse 200 (paper_toJSON paper)
            | None =>
                mkResponse 404
                  (error_body ("Paper with id " +:+ JS.quote +:+ "2503.00003" +:+ JS.quote
                               +:+ " not found"))
            end)
  ∧ eval (PaperRoute.GET (H:=codec) "2503.00003") Fixtures.broken_store = Ok internal_error.
Proof.
  split.
  - apply (proj1 (GET_paper_by_id (H:=codec) Fixtures.store "2503.00003")).
    vm_compute. reflexivity.
  - apply (proj2 (GET_paper_by_id (H:=codec) Fixtures.broken_store "2503.00003")
             Codec.SyntaxError).
    vm_compute. reflexivity.
Defined.

Lemma get_latest_papers_tool_witness :
  eval (McpRoute.executeTool (H:=codec) "get_latest_papers" McpRoute.no_args) None
  = Ok (McpRoute.mkResult ["No papers available yet."] None)
  ∧ ∃ shown,
      eval (McpRoute.executeTool (H:=codec) "get_latest_papers" McpRoute.no_args)
        Fixtures.store
      = Ok (McpRoute.mkResult
              [Codec.stringify
                 (JS.JObj [("date", JS.JStr "2025-03-01");
                           ("papers", papers_toJSON shown);
                           ("total", JS.JNum 1)])]
              None)
      ∧ shown `prefix_of` [Fixtures.mockPaper3]
      ∧ (McpRoute.arg_limit McpRoute.no_args = None → shown = take 10 [Fixtures.mockPaper3])
      ∧ (McpRoute.arg_limit McpRoute.no_args = Some 0 → shown = []).
Proof.
  split.
  - apply (proj1 (get_latest_papers_tool (H:=codec) None McpRoute.no_args)). reflexivity.
  - apply (proj2 (get_latest_papers_tool (H:=codec) Fixtures.store McpRoute.no_args)
             Fixtures.daily2).
    vm_compute. reflexivity.
Defined.

Lemma search_papers_tool_witness :
  ∃ shown,
    eval (McpRoute.executeTool (H:=codec) "search_papers"
            (McpRoute.mkArgs None None (Some "nlp") (Some 1)))
      Fixtures.store
    = Ok (McpRoute.mkResult
            [Codec.stringify
               (JS.JObj [("query", JS.JStr "nlp");
                         ("results", papers_toJSON shown);
                         ("total", JS.JNum (Z.of_nat (length shown)))])]
            None)
    ∧ shown `prefix_of` [Fixtures.mockPaper1; Fixtures.mockPaper2]
    ∧ (Some 1 = None → shown = take 10 [Fixtures.mockPaper1; Fixtures.mockPaper2])
    ∧ (∀ N, Some 1 = Some N → 1 ≤ N
         → shown = take (Z.to_nat N) [Fixtures.mockPaper1; Fixtures.mockPaper2]).
Proof.
  apply (search_papers_tool (H:=codec) Fixtures.store "nlp" None None (Some 1)
           [Fixtures.mockPaper1; Fixtures.mockPaper2]).
  vm_compute. reflexivity.
Defined.

Lemma get_paper_by_id_tool_witness :
  ∃ r,
    first_match "9999.99999" Fixtures.all_papers r
    ∧ eval (McpRoute.executeTool (H:=codec) "get_paper_by_id"
              (McpRoute.mkArgs None (Some "9999.99999") None None))
        Fixtures.store
      = Ok match r with
           | Some paper => McpRoute.mkResult [Codec.stringify (paper_toJSON paper)] None
           | None =>
               McpRoute.mkResult
                 ["Paper " +:+ JS.quote +:+ "9999.99999" +:+ JS.quote +:+ " not found"]
                 (Some true)
           end.
Proof.
  apply (get_paper_by_id_tool (H:=codec) Fixtures.store "9999.99999" None None None
           Fixtures.all_papers).
  vm_compute. reflexivity.
Defined.

Lemma get_papers_by_date_tool_witness :
  eval (McpRoute.executeTool (H:=codec) "get_papers_by_date"
          (McpRoute.mkArgs (Some "1999-01-01") None None (Some (-1))))
    Fixtures.store
  = Ok (McpRoute.mkResult ["No papers found for date " +:+ "1999-01-01"] (Some true))
  ∧ ∃ shown,
      eval (McpRoute.executeTool (H:=codec) "get_papers_by_date"
              (McpRoute.mkArgs (Some "2025-02-01") None None (Some (-1))))
        Fixtures.store
      = Ok (McpRoute.mkResult
              [Codec.stringify
                 (JS.JObj [("date", JS.JStr "2025-02-01"); ("papers", papers_toJSON shown)])]
              None)
      ∧ (Some (-1) = None → shown = DailyPapers.papers Fixtures.daily1)
      ∧ (∀ N, Some (-1) = Some N → 1 ≤ N
           → shown = take (Z.to_nat N) (DailyPapers.papers Fixtures.daily1))
      ∧ (∀ N, Some (-1) = Some N → N < 0
           → shown = take (length (DailyPapers.papers Fixtures.daily1) - Z.to_nat (- N))
                       (DailyPapers.papers Fixtures.daily1)).
Proof.
  split.
  - apply (proj1 (get_papers_by_date_tool (H:=codec) Fixtures.store "1999-01-01" None None
                    (Some (-1)) eq_refl)).
    vm_compute. reflexivity.
  - apply (proj2 (proj2 (get_papers_by_date_tool (H:=codec) Fixtures.store "2025-02-01" None
                           None (Some (-1)) eq_refl))
             Fixtures.daily1).
    vm_compute. reflexivity.
Defined.

Lemma tools_without_arguments_witness :
  eval (McpRoute.executeTool (H:=codec) "search_papers" (McpRoute.mkArgs None None None None))
    Fixtures.store
  = Ok (error_result "search_papers" McpRoute.TypeError_toLowerCase)
  ∧ eval (McpRoute.executeTool (H:=codec) "get_paper_by_id"
            (McpRoute.mkArgs None None None None))
      Fixtures.store
    = Ok (McpRoute.mkResult
            ["Paper " +:+ JS.quote +:+ "undefined" +:+ JS.quote +:+ " not found"]
            (Some true)).
Proof.
  apply (tools_without_arguments (H:=codec) Fixtures.store None None Fixtures.all_papers).
  vm_compute. reflexivity.
Defined.

(** The body null: reading its name throws, and the endpoint answers 500. *)
Example POST_null_body :
  eval (McpRoute.POST (H:=codec) (Ok None)) Fixtures.store = Ok internal_error.
Proof. reflexivity. Qed.

(** ** The tests of the repository, run on the model *)

Module Tests.
Import Fixtures.

Example getAllDates_reverse_chronological :
  eval getAllDates
    (Some {[ "2025-02-01.json" := "{}"; "2025-03-01.json" := "{}"; "2025-01-15.json" := "{}" ]})
  = Ok ["2025-03-01"; "2025-02-01"; "2025-01-15"].
Proof. vm_compute. reflexivity. Qed.

Example getAllDates_filters_non_json :
  eval getAllDates (Some {[ "2025-02-01.json" := "{}"; "README.md" := ""; ".gitkeep" := "" ]})
  = Ok ["2025-02-01"].
Proof. vm_compute. reflexivity. Qed.

Example getAllDates_creates_directory : getAllDates None = (Ok [], Some ∅).
Proof. reflexivity. Qed.

Example getPapersForDate_existing :
  eval (getPapersForDate (H:=codec) "2025-02-01") store = Ok (Some daily1).
Proof. vm_compute. reflexivity. Qed.

Example getPapersForDate_missing :
  eval (getPapersForDate (H:=codec) "1999-01-01") store = Ok None.
Proof. vm_compute. reflexivity. Qed.

Example getLatestPapers_most_recent :
  eval (getLatestPapers (H:=codec)) store = Ok (Some daily2).
Proof. vm_compute. reflexivity. Qed.

Example getLatestPapers_no_dates : eval (getLatestPapers (H:=codec)) None = Ok None.
Proof. reflexivity. Qed.

Example getPaperById_found :
  eval (getPaperById (H:=codec) "2502.00001") store = Ok (Some mockPaper1).
Proof. vm_compute. reflexivity. Qed.

Example getPaperById_unknown :
  eval (getPaperById (H:=codec) "9999.99999") store = Ok None.
Proof. vm_compute. reflexivity. Qed.

Example search_by_title : found "attention" = Ok ["2502.00001"].
Proof. vm_compute. reflexivity. Qed.

Example search_by_abstract : found "language representation" = Ok ["2502.00002"].
Proof. vm_compute. reflexivity. Qed.

Example search_by_summary : found "groundbreaking" = Ok ["2502.00001"].
Proof. vm_compute. reflexivity. Qed.

Example search_by_author : found "alice smith" = Ok ["2502.00001"].
Proof. vm_compute. reflexivity. Qed.

Example search_by_tag : found "LLM" = Ok ["2503.00003"].
Proof. vm_compute. reflexivity. Qed.

Example search_several : found "NLP" = Ok ["2502.00001"; "2502.00002"].
Proof. vm_compute. reflexivity. Qed.

Example search_nothing : found "xyzzy-no-match" = Ok [].
Proof. vm_compute. reflexivity. Qed.

Example saveDailyPapers_writes_file :
  exec (saveDailyPapers (H:=codec) daily1) None
  = Some {[ "2025-02-01.json" := Codec.stringify (daily_toJSON daily1) ]}.
Proof. vm_compute. reflexivity. Qed.

Example list_dates_tool :
  eval (McpRoute.executeTool (H:=codec) "list_dates" McpRoute.no_args) store
  = Ok (McpRoute.mkResult
          [Codec.stringify (JS.JObj [("dates", strings_toJSON ["2025-03-01"; "2025-02-01"])])]
          None).
Proof. vm_compute. reflexivity. Qed.

Example broken_document_is_an_error_result :
  eval (McpRoute.executeTool (H:=codec) "get_papers_by_date"
          (McpRoute.mkArgs (Some "2025-04-01") None None None)) broken_store
  = Ok (error_result "get_papers_by_date" Codec.SyntaxError).
Proof. vm_compute. reflexivity. Qed.

End Tests.
